(** * ShopStockBot: the inventory ledger of [bot.py]

    A shallow embedding of the stock table, of the five helper functions
    that read and write it ([add_or_update_sku], [get_stock], [list_all],
    [reduce_stock], [delete_sku]), of the two bulk command handlers
    ([addbulk_cmd], [sellbulk_cmd]) and of the single-item handlers
    ([addsku], [stock_cmd], [sell_cmd], [list_cmd], [delete_cmd]),
    followed by the properties of the ledger that the specification
    states and by further properties read off the code.

    Modelling conventions.
    - A Python [str] is the [string] of its UTF-8 bytes, which is also what
      SQLite stores and compares.  The methods [str.strip], [str.split],
      [str.partition] and the builtin [int] work on the characters of the
      text; module [Py] cuts the bytes into characters and decodes them,
      with the white space and the decimal digits of Unicode 14.
    - A Python [int] is a [Z].  An SQLite INTEGER holds a signed 64-bit
      value: binding an [int] outside this range to a statement raises
      [OverflowError], and the statement is not executed.
    - The table [stock (sku TEXT PRIMARY KEY, name TEXT, qty INTEGER)] is a
      finite map from sku to (name, qty).  The module-level connection [db]
      is threaded explicitly through a state and exception monad [Sql]: a
      computation returns a value or raises, and leaves a table behind
      either way.
    - A reply sent with [reply_text] is the value returned by the handler;
      each message template of the source is one constructor carrying the
      values interpolated into it.  A handler that raises sends no
      reply. *)

From Stdlib Require Import ZArith NArith Ascii String.
From stdpp Require Import gmap strings list fin_maps sorting.

Local Open Scope Z_scope.

(** ** Python builtins used by the handlers *)

Module Py.

(** The value of a byte. *)
Definition byte (c : ascii) : N := N_of_ascii c.

(** A continuation byte of UTF-8: [10xxxxxx]. *)
Definition is_cont (c : ascii) : bool :=
  ((128 <=? byte c) && (byte c <? 192))%N.

(** A text that begins with a continuation byte. *)
Definition starts_cont (s : string) : bool :=
  match s with
  | String c _ => is_cont c
  | EmptyString => false
  end.

(** The characters of a text, each as its own bytes: a character begins
    at every byte that is not a continuation byte (and at the first byte),
    and takes the continuation bytes that follow it. *)
Fixpoint utf8_chars (s : string) : list string :=
  match s with
  | EmptyString => []
  | String c r =>
      match utf8_chars r with
      | t :: ts =>
          if starts_cont r then String c t :: ts
          else String c EmptyString :: t :: ts
      | [] => [String c EmptyString]
      end
  end.

(** [''.join(chars)] *)
Definition str_of (chars : list string) : string :=
  foldr String.append EmptyString chars.

(** [ord(t)] for the bytes [t] of one character: [None] when [t] is not
    the UTF-8 encoding of a single code point. *)
Definition ord (t : string) : option N :=
  match t with
  | String c1 EmptyString =>
      if (byte c1 <? 128)%N then Some (byte c1) else None
  | String c1 (String c2 EmptyString) =>
      let n := ((byte c1 - 192) * 64 + (byte c2 - 128))%N in
      if ((192 <=? byte c1) && (byte c1 <? 224) && is_cont c2
          && (128 <=? n))%N
      then Some n else None
  | String c1 (String c2 (String c3 EmptyString)) =>
      let n := ((byte c1 - 224) * 4096 + (byte c2 - 128) * 64
                + (byte c3 - 128))%N in
      if ((224 <=? byte c1) && (byte c1 <? 240) && is_cont c2 && is_cont c3
          && (2048 <=? n))%N
      then Some n else None
  | String c1 (String c2 (String c3 (String c4 EmptyString))) =>
      let n := ((byte c1 - 240) * 262144 + (byte c2 - 128) * 4096
                + (byte c3 - 128) * 64 + (byte c4 - 128))%N in
      if ((240 <=? byte c1) && (byte c1 <? 248) && is_cont c2 && is_cont c3
          && is_cont c4 && (65536 <=? n) && (n <? 1114112))%N
      then Some n else None
  | _ => None
  end.

(** The code points for which [str.isspace] holds, which are those
    [str.strip] removes. *)
Definition space_code (n : N) : bool :=
  ((9 <=? n) && (n <=? 13) || (28 <=? n) && (n <=? 32)
   || (n =? 133) || (n =? 160) || (n =? 5760)
   || (8192 <=? n) && (n <=? 8202)
   || (n =? 8232) || (n =? 8233) || (n =? 8239) || (n =? 8287)
   || (n =? 12288))%N.

(** [t.isspace()] for one character [t]. *)
Definition isspace (t : string) : bool :=
  match ord t with
  | Some n => space_code n
  | None => false
  end.

(** The white space [int] skips around a literal: that of [str.isspace]
    without the four separators FS, GS, RS, US (28 to 31). *)
Definition int_space (t : string) : bool :=
  match ord t with
  | Some n => space_code n && negb ((28 <=? n) && (n <=? 31))%N
  | None => false
  end.

(** The code points of the digit zero of every script with decimal
    digits; the nine that follow each are its digits one to nine. *)
Definition decimal_zeros : list N :=
  [48; 1632; 1776; 1984; 2406; 2534; 2662; 2790; 2918; 3046; 3174; 3302;
   3430; 3558; 3664; 3792; 3872; 4160; 4240; 6112; 6160; 6470; 6608; 6784;
   6800; 6992; 7088; 7232; 7248; 42528; 43216; 43264; 43472; 43504; 43600;
   44016; 65296; 66720; 68912; 69734; 69872; 69942; 70096; 70384; 70736;
   70864; 71248; 71360; 71472; 71904; 72016; 72784; 73040; 73120; 92768;
   92864; 93008; 120782; 120792; 120802; 120812; 120822; 123200; 123632;
   125264; 130032]%N.

(** The value of a decimal digit, for one character [t]. *)
Definition decimal (t : string) : option Z :=
  match ord t with
  | Some n =>
      match List.find (λ z, (z <=? n) && (n <? z + 10))%N decimal_zeros with
      | Some z => Some (Z.of_N (n - z))
      | None => None
      end
  | None => None
  end.

(** What is left of a list once its leading elements that satisfy [f]
    are dropped. *)
Fixpoint drop_while {A : Type} (f : A → bool) (l : list A) : list A :=
  match l with
  | [] => []
  | x :: l' => if f x then drop_while f l' else l
  end.

(** The list without its leading and trailing elements that satisfy [f]. *)
Definition trim {A : Type} (f : A → bool) (l : list A) : list A :=
  reverse (drop_while f (reverse (drop_while f l))).

(** [s.strip()] *)
Definition strip (s : string) : string :=
  str_of (trim isspace (utf8_chars s)).

(** [s.split(d)] for an ASCII separator [d]: one more segment than
    there are separators, empty segments kept. *)
Fixpoint split (d : ascii) (s : string) : list string :=
  match s with
  | EmptyString => [EmptyString]
  | String c r =>
      if Ascii.eqb c d then EmptyString :: split d r
      else match split d r with
           | seg :: segs => String c seg :: segs
           | [] => [String c EmptyString]
           end
  end.

(** [s.partition(d)[2]] for an ASCII separator [d]: what follows the
    first [d], or the empty string when [d] does not occur. *)
Fixpoint partition_tail (d : ascii) (s : string) : string :=
  match s with
  | EmptyString => EmptyString
  | String c r => if Ascii.eqb c d then r else partition_tail d r
  end.

(** The most digits [int] accepts in a literal. *)
Definition max_str_digits : nat := 4300.

(** The digits of a base-10 literal after the first one: [count] digits
    have been read and [acc] is their value.  A single underscore may sit
    between two digits. *)
Fixpoint int_digits (count : nat) (acc : Z) (chars : list string) : option Z :=
  match chars with
  | [] => if decide (count ≤ max_str_digits)%nat then Some acc else None
  | c :: r =>
      match decimal c with
      | Some d => int_digits (S count) (10 * acc + d) r
      | None =>
          if decide (c = String "_" EmptyString) then
            match r with
            | c' :: r' =>
                match decimal c' with
                | Some d => int_digits (S count) (10 * acc + d) r'
                | None => None
                end
            | [] => None
            end
          else None
      end
  end.

Definition int_unsigned (chars : list string) : option Z :=
  match chars with
  | c :: r =>
      match decimal c with
      | Some d => int_digits 1 d r
      | None => None
      end
  | [] => None
  end.

(** [int(s)]: [Some n] when the call returns [n], [None] when it raises
    [ValueError].  White space around the literal is skipped, then an
    optional sign, then the digits. *)
Definition int (s : string) : option Z :=
  match trim int_space (utf8_chars s) with
  | sign :: digits =>
      if decide (sign = String "+" EmptyString) then int_unsigned digits
      else if decide (sign = String "-" EmptyString)
           then Z.opp <$> int_unsigned digits
           else int_unsigned (sign :: digits)
  | [] => None
  end.

End Py.

(** ** The stock table and the connection *)

(** One record of [stock] as a query returns it: [(sku, name, qty)]. *)
Abbreviation stock_row := (string * string * Z)%type.

(** The table: [sku] is the primary key. *)
Abbreviation table := (gmap string (string * Z)).

(** The values an INTEGER column holds: signed, 64 bits. *)
Definition fits (z : Z) : Prop := - 2 ^ 63 ≤ z ≤ 2 ^ 63 - 1.

Global Instance fits_dec (z : Z) : Decision (fits z).
Proof. unfold fits. apply _. Defined.

(** The exception a statement raises when an [int] bound to it does not
    fit. *)
Inductive exn : Type :=
  | OverflowError.

(** How a computation ends. *)
Inductive outcome (A : Type) : Type :=
  | Returns (a : A)
  | Raises (e : exn).
Arguments Returns {A} a.
Arguments Raises {A} e.

(** Code that uses the connection [db]: it reads the table and returns a
    value or raises, and leaves a table behind.  What follows a statement
    that raised is not run. *)
Definition Sql (A : Type) : Type := table → outcome A * table.

Global Instance Sql_ret : MRet Sql := λ A (a : A) (db : table), (Returns a, db).
Global Instance Sql_bind : MBind Sql :=
  λ A B (k : A → Sql B) (m : Sql A) (db : table),
    match m db with
    | (Returns a, db') => k a db'
    | (Raises e, db') => (Raises e, db')
    end.

(** The rows of the table, in no particular order. *)
Definition rows (db : table) : list stock_row :=
  (λ kv : string * (string * Z), (kv.1, kv.2.1, kv.2.2)) <$> map_to_list db.

(** [ORDER BY sku]: byte-wise lexicographic comparison of the keys. *)
Definition row_le (r1 r2 : stock_row) : Prop := String.le r1.1.1 r2.1.1.

Global Instance row_le_dec : RelDecision row_le.
Proof. intros r1 r2. unfold row_le. apply _. Defined.

(** The SQL statements of the source, each executed on a fresh cursor and
    followed by [fetchone] or [fetchall] where the source fetches. *)
Module SQL.

(** [SELECT qty FROM stock WHERE sku = ?] *)
Definition select_qty (sku : string) : Sql (option Z) :=
  λ db, (Returns (snd <$> db !! sku), db).

(** [SELECT sku FROM stock WHERE sku = ?] *)
Definition select_sku (sku : string) : Sql (option string) :=
  λ db, (Returns ((λ _, sku) <$> db !! sku), db).

(** [SELECT sku, name, qty FROM stock WHERE sku = ?] *)
Definition select_row (sku : string) : Sql (option stock_row) :=
  λ db, (Returns ((λ v : string * Z, (sku, v.1, v.2)) <$> db !! sku), db).

(** [SELECT sku, name, qty FROM stock ORDER BY sku] *)
Definition select_all : Sql (list stock_row) :=
  λ db, (Returns (merge_sort row_le (rows db)), db).

(** [UPDATE stock SET qty = ? WHERE sku = ?]: [OverflowError] when
    [new_qty] does not fit; no row, no change. *)
Definition update_qty (new_qty : Z) (sku : string) : Sql () :=
  λ db,
    if decide (fits new_qty)
    then (Returns (), alter (λ v : string * Z, (v.1, new_qty)) sku db)
    else (Raises OverflowError, db).

(** [INSERT INTO stock (sku, name, qty) VALUES (?, ?, ?)]:
    [OverflowError] when [qty] does not fit.  The source executes it only
    after a [SELECT] found no row for [sku]. *)
Definition insert (sku name : string) (qty : Z) : Sql () :=
  λ db,
    if decide (fits qty)
    then (Returns (), <[sku := (name, qty)]> db)
    else (Raises OverflowError, db).

(** [DELETE FROM stock WHERE sku = ?] *)
Definition delete (sku : string) : Sql () :=
  λ db, (Returns (), base.delete sku db).

End SQL.

(** ** Helper DB functions *)

Definition add_or_update_sku (sku name : string) (qty : Z) : Sql bool :=
  row ← SQL.select_qty sku;
  _ ← match row with
      | Some row0 =>
          let new_qty := row0 + qty in
          SQL.update_qty new_qty sku
      | None => SQL.insert sku name qty
      end;
  mret true.

Definition get_stock (sku : string) : Sql (option stock_row) :=
  SQL.select_row sku.

Definition list_all : Sql (list stock_row) :=
  SQL.select_all.

(** The second component of what [reduce_stock] returns: one of its two
    messages, or the new quantity. *)
Inductive reduce_payload : Type :=
  | SKU_not_found
  | Not_enough_stock (current : Z)
  | New_q (new_q : Z).

Definition reduce_stock (sku : string) (amount : Z) : Sql (bool * reduce_payload) :=
  row ← SQL.select_qty sku;
  match row with
  | None => mret (false, SKU_not_found)
  | Some current =>
      if bool_decide (amount > current) then mret (false, Not_enough_stock current)
      else
        let new_q := current - amount in
        _ ← SQL.update_qty new_q sku;
        mret (true, New_q new_q)
  end.

Definition delete_sku (sku : string) : Sql bool :=
  row ← SQL.select_sku sku;
  match row with
  | None => mret false
  | Some _ => _ ← SQL.delete sku; mret true
  end.

(** ** Bot command handlers *)

(** One line appended to [results] by a bulk handler. *)
Inductive result_line : Type :=
  | Invalid_format (entry : string)
      (** [✖ Invalid format: `{entry}` (expected ...)] *)
  | Qty_must_be_a_number (sku qty_str : string)
      (** [✖ `{sku}`: qty must be a number ({qty_str})] *)
  | Added (sku : string) (qty : Z) (name : string)
      (** [✔ `{sku}` +{qty} ({name})] *)
  | Sell_failed (sku : string) (res : reduce_payload)
      (** [✖ `{sku}`: {res}] *)
  | Sold (sku : string) (qty : Z) (res : reduce_payload)
      (** [✔ `{sku}` - sold {qty}. New qty: {res}] *).

(** The text a bulk handler replies with. *)
Inductive reply : Type :=
  | Usage_addbulk
  | Usage_sellbulk
  | No_valid_entries
  | Joined (results : list result_line).

(** [for x in xs: results.append(body(x))], starting from [results = []]. *)
Fixpoint for_each {A B : Type} (body : A → Sql B) (xs : list A) : Sql (list B) :=
  match xs with
  | [] => mret []
  | x :: xs' =>
      line ← body x;
      results ← for_each body xs';
      mret (line :: results)
  end.

(** [[p.strip() for p in text.split(";") if p.strip()]] *)
Definition entries (text : string) : list string :=
  Py.strip <$> filter (λ p, Py.strip p ≠ EmptyString) (Py.split ";" text).

(** [[b.strip() for b in entry.split("|")]] *)
Definition fields (entry : string) : list string :=
  Py.strip <$> Py.split "|" entry.

(** The body of the loop of [addbulk_cmd]: the call of the helper is
    outside the [try], so what it raises leaves the loop. *)
Definition addbulk_entry (entry : string) : Sql result_line :=
  match fields entry with
  | [sku; name; qty_str] =>
      match Py.int qty_str with
      | None => mret (Qty_must_be_a_number sku qty_str)
      | Some qty =>
          _ ← add_or_update_sku sku name qty;
          mret (Added sku qty name)
      end
  | _ => mret (Invalid_format entry)
  end.

Definition addbulk_cmd (message_text : string) : Sql reply :=
  let text := Py.strip (Py.partition_tail " " message_text) in
  if decide (text = EmptyString) then mret Usage_addbulk
  else
    let parts := entries text in
    match parts with
    | [] => mret No_valid_entries
    | _ =>
        results ← for_each addbulk_entry parts;
        mret (Joined results)
    end.

(** The body of the loop of [sellbulk_cmd]. *)
Definition sellbulk_entry (entry : string) : Sql result_line :=
  match fields entry with
  | [sku; qty_str] =>
      match Py.int qty_str with
      | None => mret (Qty_must_be_a_number sku qty_str)
      | Some qty =>
          '(ok, res) ← reduce_stock sku qty;
          if negb ok then mret (Sell_failed sku res)
          else mret (Sold sku qty res)
      end
  | _ => mret (Invalid_format entry)
  end.

Definition sellbulk_cmd (message_text : string) : Sql reply :=
  let text := Py.strip (Py.partition_tail " " message_text) in
  if decide (text = EmptyString) then mret Usage_sellbulk
  else
    let parts := entries text in
    match parts with
    | [] => mret No_valid_entries
    | _ =>
        results ← for_each sellbulk_entry parts;
        mret (Joined results)
    end.

(** ** Single-item command handlers *)

(** [sep.join(parts)] *)
Fixpoint str_join (sep : string) (parts : list string) : string :=
  match parts with
  | [] => EmptyString
  | [part] => part
  | part :: rest => part +:+ sep +:+ str_join sep rest
  end.

(** [xs[start:stop]] for indices counted from the front. *)
Definition list_slice {A : Type} (start stop : nat) (xs : list A) : list A :=
  take (stop - start) (drop start xs).

(** The text a single-item handler replies with. *)
Inductive command_reply : Type :=
  | Usage_addsku
  | Usage_stock
  | Usage_sell
  | Usage_delete
  | Quantity_must_be_a_number
  | Updated (sku name : string) (qty : Z)
      (** [SKU {sku} ({name}) updated by +{qty}.] *)
  | SKU_not_found_reply
      (** [SKU not found.] *)
  | Stock_of (row : stock_row)
      (** [SKU: {row[0]}\nName: {row[1]}\nQty: {row[2]}] *)
  | Sell_error (result : reduce_payload)
      (** [Error: {result}] *)
  | Sold_reply (qty : Z) (sku : string) (result : reduce_payload)
      (** [Sold {qty} of {sku}. New qty: {result}] *)
  | No_items_in_stock
  | Current_stock (rows : list stock_row)
      (** [Current stock:] and one line [{sku} — {name} — {qty}] per row *)
  | Deleted (sku : string)
      (** [SKU {sku} has been deleted.] *).

(** [context.args] is the list [args].  After the test on [len(args)] the
    list has a first and a last element; the last branch of the [match] is
    not reached. *)
Definition addsku (args : list string) : Sql command_reply :=
  if decide (length args < 3)%nat then mret Usage_addsku
  else
    match args, last args with
    | sku :: _, Some qty_str =>
        let name := str_join " " (list_slice 1 (length args - 1) args) in
        match Py.int qty_str with
        | None => mret Quantity_must_be_a_number
        | Some qty =>
            _ ← add_or_update_sku sku name qty;
            mret (Updated sku name qty)
        end
    | _, _ => mret Usage_addsku
    end.

Definition stock_cmd (args : list string) : Sql command_reply :=
  match args with
  | [sku] =>
      row ← get_stock sku;
      match row with
      | None => mret SKU_not_found_reply
      | Some row0 => mret (Stock_of row0)
      end
  | _ => mret Usage_stock
  end.

Definition sell_cmd (args : list string) : Sql command_reply :=
  match args with
  | [sku; qty_str] =>
      match Py.int qty_str with
      | None => mret Quantity_must_be_a_number
      | Some qty =>
          '(ok, result) ← reduce_stock sku qty;
          if negb ok then mret (Sell_error result)
          else mret (Sold_reply qty sku result)
      end
  | _ => mret Usage_sell
  end.

Definition list_cmd : Sql command_reply :=
  rows0 ← list_all;
  match rows0 with
  | [] => mret No_items_in_stock
  | _ => mret (Current_stock rows0)
  end.

Definition delete_cmd (args : list string) : Sql command_reply :=
  match args with
  | [sku] =>
      success ← delete_sku sku;
      if negb success then mret SKU_not_found_reply
      else mret (Deleted sku)
  | _ => mret Usage_delete
  end.

(** ** Sequences of calls on the ledger *)

(** A call of one of the five helper functions. *)
Inductive call : Type :=
  | Call_add (sku name : string) (qty : Z)
  | Call_get (sku : string)
  | Call_list
  | Call_reduce (sku : string) (amount : Z)
  | Call_delete (sku : string).

(** The table a call leaves behind, whether it returns or raises. *)
Definition exec (c : call) (db : table) : table :=
  match c with
  | Call_add sku name qty => (add_or_update_sku sku name qty db).2
  | Call_get sku => (get_stock sku db).2
  | Call_list => (list_all db).2
  | Call_reduce sku amount => (reduce_stock sku amount db).2
  | Call_delete sku => (delete_sku sku db).2
  end.

(** The table a sequence of calls leaves behind, first call first. *)
Definition run (cs : list call) (db : table) : table :=
  foldl (λ d c, exec c d) db cs.

(** [c] is a call of [add_or_update_sku] for [sku]. *)
Definition adds (sku : string) (c : call) : Prop :=
  match c with
  | Call_add sku' _ _ => sku' = sku
  | _ => False
  end.

Global Instance adds_dec (sku : string) (c : call) : Decision (adds sku c).
Proof. destruct c; simpl; apply _. Defined.

(** ** Vocabulary of the statements *)

(** Strictly ascending keys. *)
Definition row_lt (r1 r2 : stock_row) : Prop := String.ltb r1.1.1 r2.1.1 = true.

(** The bytes of a text. *)
Abbreviation chars := list_ascii_of_string.

(** A text made of white space only (the empty text included): every
    character of it is one that [str.strip] removes. *)
Definition blank (s : string) : Prop :=
  Forall (λ t, Py.isspace t = true) (Py.utf8_chars s).

Global Instance blank_dec (s : string) : Decision (blank s).
Proof. unfold blank. apply _. Defined.

(** The replies that stand for the whole batch instead of its entries (the
    specification's EmptyBatch): the usage message, sent when nothing
    follows the command, and "No valid entries found." *)
Definition EmptyBatch (r : reply) : Prop :=
  match r with
  | Usage_addbulk | Usage_sellbulk | No_valid_entries => True
  | Joined _ => False
  end.

Global Instance EmptyBatch_dec (r : reply) : Decision (EmptyBatch r).
Proof. destruct r; simpl; apply _. Defined.

(** A handler that replied with one of them. *)
Definition replied_EmptyBatch (o : outcome reply) : Prop :=
  match o with
  | Returns r => EmptyBatch r
  | Raises _ => False
  end.

Global Instance replied_EmptyBatch_dec (o : outcome reply) :
  Decision (replied_EmptyBatch o).
Proof. destruct o; simpl; apply _. Defined.

(** A payload with no entry in it: white space only, or nothing but blank
    segments between the [;]. *)
Definition no_entries (payload : string) : Prop :=
  blank payload ∨ filter (λ p, ¬ blank p) (Py.split ";" payload) = [].

(** A line that reports a failure ([✖]). *)
Definition failed (line : result_line) : Prop :=
  match line with
  | Added _ _ _ | Sold _ _ _ => False
  | Invalid_format _ | Qty_must_be_a_number _ _ | Sell_failed _ _ => True
  end.

Global Instance failed_dec (line : result_line) : Decision (failed line).
Proof. destruct line; simpl; apply _. Defined.

(** What "sequential, no rollback" says of a loop body run over
    [parts], for the two ways the loop can end.

    When the loop returns, it returns one line per entry; and wherever an
    entry [e] stands in the batch, the loop ran the body on [e] in the
    table left by the entries before it, put its line at the position of
    [e], and went on with the entries after it in the table [e] left; a
    failed entry left the table as it found it, so that failures after
    [e] left the table as [e] left it.

    When the loop raises, it stopped at an entry [e] whose body raised:
    the entries before [e] were run in order and the table is the one
    they left; [e] changed nothing and the entries after [e] were not
    run. *)
Definition sequential_no_rollback
    (body : string → Sql result_line) (parts : list string) (db : table) : Prop :=
  (∀ lines db', for_each body parts db = (Returns lines, db') →
     length lines = length parts
     ∧ ∀ pre e post, parts = pre ++ e :: post →
         ∃ lines1 db1 line db2 lines2,
           for_each body pre db = (Returns lines1, db1)
           ∧ body e db1 = (Returns line, db2)
           ∧ for_each body post db2 = (Returns lines2, db')
           ∧ lines = lines1 ++ line :: lines2
           ∧ length lines1 = length pre
           ∧ (failed line → db2 = db1)
           ∧ (Forall failed lines2 → db' = db2))
  ∧ (∀ x db', for_each body parts db = (Raises x, db') →
       ∃ pre e post lines1,
         parts = pre ++ e :: post
         ∧ for_each body pre db = (Returns lines1, db')
         ∧ body e db' = (Raises x, db')).

(** The text of a non-negative integer, as [int] reads it. *)
Definition nonneg_integer (s : string) : Prop :=
  ∃ n, Py.int s = Some n ∧ 0 ≤ n.

(** ** Vocabulary of the further properties *)

(** A computation that returned a reply announcing a change of the
    table: updated, sold, deleted. *)
Definition reports_change (r : command_reply) : Prop :=
  match r with
  | Updated _ _ _ | Sold_reply _ _ _ | Deleted _ => True
  | _ => False
  end.

Global Instance reports_change_dec (r : command_reply) : Decision (reports_change r).
Proof. destruct r; simpl; apply _. Defined.

Definition replied_change (o : outcome command_reply) : Prop :=
  match o with
  | Returns r => reports_change r
  | Raises _ => False
  end.

Global Instance replied_change_dec (o : outcome command_reply) :
  Decision (replied_change o).
Proof. destruct o; simpl; apply _. Defined.

(** [reduce_stock] returned success. *)
Definition succeeded (o : outcome (bool * reduce_payload)) : Prop :=
  match o with
  | Returns (true, _) => True
  | _ => False
  end.

Global Instance succeeded_dec (o : outcome (bool * reduce_payload)) :
  Decision (succeeded o).
Proof. destruct o as [[[] ?]|]; simpl; apply _. Defined.

(** The quantity on hand: 0 for a sku without a row. *)
Definition qty_of (db : table) (sku : string) : Z :=
  match db !! sku with
  | Some (_, q) => q
  | None => 0
  end.

(** The name on record, if any. *)
Definition name_of (db : table) (sku : string) : option string :=
  fst <$> db !! sku.

(** No quantity in the table is negative. *)
Definition nonneg (db : table) : Prop :=
  map_Forall (λ _ (v : string * Z), 0 ≤ v.2) db.

(** Every quantity in the table is one an INTEGER column holds. *)
Definition storable (db : table) : Prop :=
  map_Forall (λ _ (v : string * Z), fits v.2) db.

(** The sku a call addresses. *)
Definition target (c : call) : option string :=
  match c with
  | Call_add sku _ _ | Call_get sku | Call_reduce sku _ | Call_delete sku => Some sku
  | Call_list => None
  end.

(** A call that cannot take a quantity below zero on its own account: any
    call but an [add_or_update_sku] with a negative quantity. *)
Definition adds_nonneg (c : call) : Prop :=
  match c with
  | Call_add _ _ qty => 0 ≤ qty
  | _ => True
  end.

(** The total quantity the [✔] lines of a bulk reply report as added to
    [sku], and as sold of [sku]. *)
Definition line_added (sku : string) (line : result_line) : Z :=
  match line with
  | Added sku' qty _ => if decide (sku' = sku) then qty else 0
  | _ => 0
  end.

Definition line_sold (sku : string) (line : result_line) : Z :=
  match line with
  | Sold sku' qty _ => if decide (sku' = sku) then qty else 0
  | _ => 0
  end.

Definition lines_total (f : result_line → Z) (lines : list result_line) : Z :=
  foldr (λ line acc, f line + acc) 0 lines.

(** The lines of a bulk reply; none for a whole-batch reply. *)
Definition reply_lines (r : reply) : list result_line :=
  match r with
  | Joined lines => lines
  | _ => []
  end.

(** Starting from [q], every running total of the quantities [ds] is one
    an INTEGER column holds. *)
Fixpoint totals_fit (q : Z) (ds : list Z) : Prop :=
  match ds with
  | [] => True
  | d :: ds' => fits (q + d) ∧ totals_fit (q + d) ds'
  end.

(** The quantity an entry of [sellbulk_cmd] asks to sell is not
    negative. *)
Definition sells_nonneg (entry : string) : Prop :=
  match fields entry with
  | [_; qty_str] =>
      match Py.int qty_str with
      | Some qty => 0 ≤ qty
      | None => True
      end
  | _ => True
  end.

(** A string without the byte [d]. *)
Definition without (d : ascii) (s : string) : Prop :=
  Forall (λ c, c ≠ d) (chars s).

(** A text without white space: none of its characters is one that
    [str.strip] removes. *)
Definition spaceless (s : string) : Prop :=
  Forall (λ t, Py.isspace t = false) (Py.utf8_chars s).

(** A text usable as one field of a bulk entry as it stands: it does not
    begin in the middle of a character, and has no white space, no [;] and
    no [|]. *)
Definition plain (s : string) : Prop :=
  Py.starts_cont s = false ∧ spaceless s ∧ without ";" s ∧ without "|" s.

(** The number of occurrences of the byte [d] in [s]. *)
Fixpoint occurrences (d : ascii) (s : string) : nat :=
  match s with
  | EmptyString => 0%nat
  | String c r => ((if Ascii.eqb c d then 1 else 0) + occurrences d r)%nat
  end.

(** The bytes of one character: a first byte and continuation bytes. *)
Fixpoint all_cont (s : string) : bool :=
  match s with
  | EmptyString => true
  | String c r => Py.is_cont c && all_cont r
  end.

Definition is_char (t : string) : bool :=
  match t with
  | String _ r => all_cont r
  | EmptyString => false
  end.

(** A list of characters as [Py.utf8_chars] cuts them: only the first may
    begin with a continuation byte. *)
Definition char_list (l : list string) : Prop :=
  match l with
  | [] => True
  | t :: ts =>
      is_char t = true
      ∧ Forall (λ u, is_char u = true ∧ Py.starts_cont u = false) ts
  end.

(** * Properties *)

(** ** The builtins on examples *)

Example strip_example :
  Py.strip "  a b  " = "a b" ∧ Py.strip "   " = EmptyString
  ∧ Py.strip (String "194" (String "160" "x ")) = "x".
Proof. repeat split; vm_compute; reflexivity. Qed.

Example split_example :
  Py.split ";" "a;;b;" = ["a"; EmptyString; "b"; EmptyString]
  ∧ Py.split ";" EmptyString = [EmptyString].
Proof. split; reflexivity. Qed.

Example partition_tail_example :
  Py.partition_tail " " "/addbulk A|a|1; B|b|2" = "A|a|1; B|b|2"
  ∧ Py.partition_tail " " "/addbulk" = EmptyString.
Proof. split; reflexivity. Qed.

Example int_example :
  Py.int " -1_000 " = Some (-1000) ∧ Py.int "+7" = Some 7
  ∧ Py.int "007" = Some 7 ∧ Py.int "bad" = None ∧ Py.int "1__0" = None
  ∧ Py.int "+ 5" = None ∧ Py.int EmptyString = None ∧ Py.int "2.5" = None
  ∧ Py.int (String "217" (String "163" EmptyString)) = Some 3
  ∧ Py.int (String "028" "5") = None.
Proof. repeat split; vm_compute; reflexivity. Qed.

(** ** Characters and bytes *)

Lemma app_String (c : ascii) (a b : string) :
  String c a +:+ b = String c (a +:+ b).
Proof. reflexivity. Qed.

Lemma app_empty (b : string) : EmptyString +:+ b = b.
Proof. reflexivity. Qed.

Lemma app_empty_r (a : string) : a +:+ EmptyString = a.
Proof. induction a as [|c a IH]; [done|]. by rewrite app_String, IH. Qed.

Lemma app_assoc_str (a b c : string) : (a +:+ b) +:+ c = a +:+ (b +:+ c).
Proof. induction a as [|x a IH]; [done|]. by rewrite !app_String, IH. Qed.

Lemma str_of_cons (t : string) (ts : list string) :
  Py.str_of (t :: ts) = t +:+ Py.str_of ts.
Proof. reflexivity. Qed.

Lemma str_of_app (l1 l2 : list string) :
  Py.str_of (l1 ++ l2) = Py.str_of l1 +:+ Py.str_of l2.
Proof.
  induction l1 as [|t l1 IH]; [done|].
  rewrite <- app_comm_cons, !str_of_cons, IH. by rewrite app_assoc_str.
Qed.

Lemma utf8_chars_String (c : ascii) (r : string) :
  Py.utf8_chars (String c r)
  = match Py.utf8_chars r with
    | t :: ts =>
        if Py.starts_cont r then String c t :: ts
        else String c EmptyString :: t :: ts
    | [] => [String c EmptyString]
    end.
Proof. reflexivity. Qed.

(** The first character of a text begins with its first byte. *)
Lemma utf8_chars_head (c : ascii) (r : string) :
  ∃ t' ts, Py.utf8_chars (String c r) = String c t' :: ts
           ∧ all_cont t' = true
           ∧ Forall (λ u, is_char u = true ∧ Py.starts_cont u = false) ts.
Proof.
  revert c. induction r as [|c' r IH]; intros c.
  - exists EmptyString, []. by repeat split.
  - destruct (IH c') as (t' & ts & Heq & Ht' & Hts).
    rewrite utf8_chars_String, Heq. simpl.
    destruct (Py.is_cont c') eqn:Hc'.
    + exists (String c' t'), ts. repeat split; [|done].
      simpl. by rewrite Hc', Ht'.
    + exists EmptyString, (String c' t' :: ts). repeat split.
      constructor; [|done]. simpl. by rewrite Hc'.
Qed.

Lemma utf8_chars_char_list (s : string) : char_list (Py.utf8_chars s).
Proof.
  destruct s as [|c r]; [done|].
  destruct (utf8_chars_head c r) as (t' & ts & -> & Ht' & Hts).
  by split.
Qed.

Lemma str_of_utf8_chars (s : string) : Py.str_of (Py.utf8_chars s) = s.
Proof.
  induction s as [|c r IH]; [done|].
  rewrite utf8_chars_String.
  destruct (Py.utf8_chars r) as [|t ts].
  - simpl in IH. by rewrite <- IH.
  - rewrite str_of_cons in IH.
    destruct (Py.starts_cont r); rewrite !str_of_cons, !app_String, ?app_empty;
      by rewrite IH.
Qed.

Lemma utf8_chars_app_char (c : ascii) (t' rest : string) :
  all_cont t' = true → Py.starts_cont rest = false →
  Py.utf8_chars (String c (t' +:+ rest)) = String c t' :: Py.utf8_chars rest.
Proof.
  revert c. induction t' as [|c2 t' IH]; intros c Ht' Hrest.
  - rewrite app_empty, utf8_chars_String, Hrest.
    by destruct (Py.utf8_chars rest).
  - simpl in Ht'. apply andb_prop in Ht' as [Hc2 Ht'].
    rewrite app_String, utf8_chars_String, (IH c2 Ht' Hrest).
    simpl. by rewrite Hc2.
Qed.

Lemma fresh_str_of (ts : list string) :
  Forall (λ u, is_char u = true ∧ Py.starts_cont u = false) ts →
  Py.starts_cont (Py.str_of ts) = false.
Proof.
  destruct ts as [|u ts]; [done|].
  intros [[Hu Hfresh] _]%Forall_cons.
  destruct u as [|c u]; [done|]. by rewrite str_of_cons, app_String.
Qed.

Lemma fresh_char_list (ts : list string) :
  Forall (λ u, is_char u = true ∧ Py.starts_cont u = false) ts → char_list ts.
Proof.
  destruct ts as [|u ts]; [done|].
  intros [[Hu _] Hts]%Forall_cons. by split.
Qed.

(** Cutting the text of a list of characters gives the list back. *)
Lemma utf8_chars_str_of (l : list string) :
  char_list l → Py.utf8_chars (Py.str_of l) = l.
Proof.
  assert (∀ ts,
    Forall (λ u, is_char u = true ∧ Py.starts_cont u = false) ts →
    ∀ c t', all_cont t' = true →
      Py.utf8_chars (Py.str_of (String c t' :: ts)) = String c t' :: ts) as Haux.
  { induction ts as [|u ts IH]; intros Hts c t' Ht'.
    - rewrite str_of_cons. simpl Py.str_of.
      rewrite app_String, utf8_chars_app_char by done. done.
    - pose proof (fresh_str_of _ Hts) as Hfresh.
      apply Forall_cons in Hts as [[Hu Hu'] Hts].
      destruct u as [|c2 u]; [done|].
      rewrite str_of_cons, app_String, utf8_chars_app_char by done.
      by rewrite (IH Hts c2 u Hu). }
  destruct l as [|[|c t'] ts]; [done|by intros [? _]|].
  intros [Ht' Hts]. by apply Haux.
Qed.

Lemma char_list_app_l (a b : list string) : char_list (a ++ b) → char_list a.
Proof.
  destruct a as [|t a]; [done|].
  intros [Ht Hab]. split; [done|].
  by apply Forall_app in Hab as [? _].
Qed.

Lemma char_list_app_r (a b : list string) : char_list (a ++ b) → char_list b.
Proof.
  destruct a as [|t a]; [done|].
  intros [Ht Hab]. apply fresh_char_list.
  by apply Forall_app in Hab as [_ ?].
Qed.

Lemma bytes_str_of (P : ascii → Prop) (l : list string) :
  Forall P (chars (Py.str_of l)) ↔ Forall (λ t, Forall P (chars t)) l.
Proof.
  assert (∀ a b, chars (a +:+ b) = chars a ++ chars b) as Happ.
  { induction a as [|c a IH]; intros b; [done|].
    rewrite app_String. simpl. by rewrite IH. }
  induction l as [|t l IH]; simpl.
  - split; constructor.
  - rewrite Forall_cons, <- IH.
    change (foldr String.append EmptyString l) with (Py.str_of l).
    by rewrite Happ, Forall_app.
Qed.

(** ** Trimming *)

Section trim_facts.
Context {A : Type} (f : A → bool).

Lemma drop_while_split (l : list A) :
  ∃ k, l = k ++ Py.drop_while f l ∧ Forall (λ x, f x = true) k.
Proof.
  induction l as [|x l (k & Hl & Hk)]; simpl.
  - by exists [].
  - destruct (f x) eqn:Hx.
    + exists (x :: k). split; [by rewrite <- app_comm_cons, <- Hl|].
      by constructor.
    + by exists [].
Qed.

Lemma drop_while_head (l : list A) :
  match Py.drop_while f l with
  | x :: _ => f x = false
  | [] => True
  end.
Proof.
  induction l as [|x l IH]; simpl; [done|].
  destruct (f x) eqn:Hx; [done|by rewrite Hx].
Qed.

Lemma drop_while_id (l : list A) :
  match l with x :: _ => f x = false | [] => True end →
  Py.drop_while f l = l.
Proof. destruct l as [|x l]; simpl; [done|]. by intros ->. Qed.

Lemma drop_while_nil (l : list A) :
  Py.drop_while f l = [] ↔ Forall (λ x, f x = true) l.
Proof.
  induction l as [|x l IH]; simpl.
  - split; [constructor|done].
  - rewrite Forall_cons. destruct (f x) eqn:Hx.
    + rewrite IH. intuition.
    + split; [done|]. intros [? _]. congruence.
Qed.

(** A trimmed list is the list without a prefix and a suffix of elements
    that satisfy [f]. *)
Lemma trim_split (l : list A) :
  ∃ k1 k2, l = k1 ++ Py.trim f l ++ k2
           ∧ Forall (λ x, f x = true) k1 ∧ Forall (λ x, f x = true) k2.
Proof.
  unfold Py.trim.
  destruct (drop_while_split l) as (k1 & Hl & Hk1).
  destruct (drop_while_split (reverse (Py.drop_while f l))) as (k2 & Hr & Hk2).
  exists k1, (reverse k2). split; [|split; [done|by apply Forall_reverse]].
  rewrite Hl at 1. f_equal.
  rewrite <- (reverse_involutive (Py.drop_while f l)), Hr at 1.
  by rewrite reverse_app.
Qed.

Lemma trim_ends (l : list A) :
  match Py.trim f l with x :: _ => f x = false | [] => True end
  ∧ match reverse (Py.trim f l) with x :: _ => f x = false | [] => True end.
Proof.
  unfold Py.trim. split.
  - pose proof (drop_while_head l) as Hhead.
    destruct (drop_while_split (reverse (Py.drop_while f l))) as (k & Hr & Hk).
    destruct (reverse (Py.drop_while f (reverse (Py.drop_while f l))))
      as [|x m] eqn:Hm; [done|].
    apply (f_equal reverse) in Hr.
    rewrite reverse_involutive, reverse_app, Hm in Hr.
    rewrite Hr in Hhead. by rewrite <- app_comm_cons in Hhead.
  - rewrite reverse_involutive. apply drop_while_head.
Qed.

Lemma trim_id (l : list A) :
  match l with x :: _ => f x = false | [] => True end →
  match reverse l with x :: _ => f x = false | [] => True end →
  Py.trim f l = l.
Proof.
  intros Hhead Hlast. unfold Py.trim.
  rewrite (drop_while_id l Hhead), (drop_while_id (reverse l) Hlast).
  apply reverse_involutive.
Qed.

Lemma trim_idemp (l : list A) : Py.trim f (Py.trim f l) = Py.trim f l.
Proof. destruct (trim_ends l). by apply trim_id. Qed.

Lemma trim_nil (l : list A) :
  Py.trim f l = [] ↔ Forall (λ x, f x = true) l.
Proof.
  unfold Py.trim. split.
  - intros Hnil. apply (f_equal reverse) in Hnil.
    rewrite reverse_involutive in Hnil. change (reverse []) with (@nil A) in Hnil.
    apply drop_while_nil, Forall_reverse in Hnil.
    rewrite reverse_involutive in Hnil.
    pose proof (drop_while_head l) as Hhead.
    destruct (Py.drop_while f l) as [|x m] eqn:Hm; [by apply drop_while_nil|].
    apply Forall_cons in Hnil as [Hx _]. congruence.
  - intros Hl. apply drop_while_nil in Hl. by rewrite Hl.
Qed.

Lemma Forall_trim (P : A → Prop) (l : list A) :
  Forall P l → Forall P (Py.trim f l).
Proof.
  intros Hl. destruct (trim_split l) as (k1 & k2 & Heq & _).
  rewrite Heq in Hl. rewrite !Forall_app in Hl. tauto.
Qed.

Lemma trim_all_false (l : list A) :
  Forall (λ x, f x = false) l → Py.trim f l = l.
Proof.
  intros Hl. apply trim_id.
  - destruct l as [|x l]; [done|]. by apply Forall_cons in Hl as [? _].
  - apply Forall_reverse in Hl.
    destruct (reverse l) as [|x m]; [done|]. by apply Forall_cons in Hl as [? _].
Qed.
End trim_facts.

Lemma char_list_trim (f : string → bool) (l : list string) :
  char_list l → char_list (Py.trim f l).
Proof.
  intros Hl. destruct (trim_split f l) as (k1 & k2 & Heq & _).
  rewrite Heq in Hl. by apply char_list_app_r, char_list_app_l in Hl.
Qed.

(** The characters of a trimmed text are the characters of the text,
    trimmed. *)
Lemma utf8_chars_strip (s : string) :
  Py.utf8_chars (Py.strip s) = Py.trim Py.isspace (Py.utf8_chars s).
Proof.
  unfold Py.strip. apply utf8_chars_str_of, char_list_trim, utf8_chars_char_list.
Qed.

(** Trimming what is already trimmed changes nothing. *)
Lemma strip_idemp (s : string) : Py.strip (Py.strip s) = Py.strip s.
Proof.
  unfold Py.strip at 1. rewrite utf8_chars_strip, trim_idemp. done.
Qed.

Lemma str_of_empty (l : list string) :
  char_list l → Py.str_of l = EmptyString → l = [].
Proof. destruct l as [|[|c t] l]; [done|by intros [? _]|done]. Qed.

(** [s.strip()] is empty exactly when [s] is white space only. *)
Lemma strip_empty (s : string) : Py.strip s = EmptyString ↔ blank s.
Proof.
  unfold blank. rewrite <- trim_nil. unfold Py.strip. split.
  - apply str_of_empty, char_list_trim, utf8_chars_char_list.
  - by intros ->.
Qed.

(** Trimming keeps a property that all bytes of the text have. *)
Lemma strip_bytes (P : ascii → Prop) (s : string) :
  Forall P (chars s) → Forall P (chars (Py.strip s)).
Proof.
  rewrite <- (str_of_utf8_chars s) at 1. unfold Py.strip.
  rewrite !bytes_str_of. apply Forall_trim.
Qed.

Lemma strip_spaceless (s : string) : spaceless s → Py.strip s = s.
Proof.
  intros Hs. unfold Py.strip. rewrite trim_all_false by done.
  apply str_of_utf8_chars.
Qed.

(** ** Splitting *)

Lemma split_without (d : ascii) (s : string) :
  without d s → Py.split d s = [s].
Proof.
  unfold without. induction s as [|c r IH]; simpl; [done|].
  intros [Hc Hr]%Forall_cons.
  destruct (Ascii.eqb_spec c d) as [->|_]; [done|].
  by rewrite (IH Hr).
Qed.

Lemma split_app (d : ascii) (a b : string) :
  without d a → Py.split d (a +:+ String d b) = a :: Py.split d b.
Proof.
  unfold without. induction a as [|c r IH]; intros Ha.
  - rewrite app_empty. simpl. by rewrite Ascii.eqb_refl.
  - apply Forall_cons in Ha as [Hc Hr].
    rewrite app_String. simpl.
    destruct (Ascii.eqb_spec c d) as [->|_]; [done|].
    by rewrite (IH Hr).
Qed.

Lemma split_nonempty (d : ascii) (s : string) : Py.split d s ≠ [].
Proof.
  destruct s as [|c r]; simpl; [done|].
  destruct (Ascii.eqb c d); [done|]. by destruct (Py.split d r).
Qed.

(** A prefix without separator goes to the first segment. *)
Lemma split_prefix (d : ascii) (a rest : string) :
  without d a →
  Py.split d (a +:+ rest)
  = match Py.split d rest with
    | seg :: segs => (a +:+ seg) :: segs
    | [] => [a]
    end.
Proof.
  unfold without. induction a as [|c r IH]; intros Ha.
  - rewrite app_empty.
    destruct (Py.split d rest) as [|seg segs] eqn:Hsplit; [|done].
    by apply split_nonempty in Hsplit.
  - apply Forall_cons in Ha as [Hc Hr].
    rewrite app_String. simpl.
    destruct (Ascii.eqb_spec c d) as [->|_]; [done|].
    rewrite (IH Hr).
    destruct (Py.split d rest) as [|seg segs] eqn:Hsplit; [|done].
    by apply split_nonempty in Hsplit.
Qed.

Lemma split_first (d : ascii) (c : ascii) (r : string) :
  c ≠ d → ∃ seg segs, Py.split d (String c r) = String c seg :: segs.
Proof.
  intros Hne. simpl. destruct (Ascii.eqb_spec c d) as [->|_]; [done|].
  destruct (Py.split d r) as [|seg segs]; eauto.
Qed.

Lemma split_first_fresh (d : ascii) (s seg : string) (segs : list string) :
  Py.starts_cont s = false → Py.split d s = seg :: segs →
  Py.starts_cont seg = false.
Proof.
  destruct s as [|c r]; simpl.
  - by intros _ [= <- _].
  - intros Hc. destruct (Ascii.eqb c d); [by intros [= <- _]|].
    destruct (Py.split d r); by intros [= <- _].
Qed.

Lemma split_segments_without (d : ascii) (s : string) :
  Forall (without d) (Py.split d s).
Proof.
  unfold without. induction s as [|c r IH]; simpl.
  - repeat constructor.
  - destruct (Ascii.eqb_spec c d) as [->|Hne].
    + constructor; [constructor|done].
    + destruct (Py.split d r) as [|seg segs].
      * repeat constructor. done.
      * apply Forall_cons in IH as [Hseg Hsegs].
        constructor; [|done]. simpl. by constructor.
Qed.

Lemma length_split (d : ascii) (s : string) :
  length (Py.split d s) = S (occurrences d s).
Proof.
  induction s as [|c r IH]; simpl; [done|].
  destruct (Ascii.eqb c d); simpl; [by rewrite IH|].
  destruct (Py.split d r) as [|seg segs]; simpl in *; lia.
Qed.

(** ** Blank payloads and segments *)

Lemma all_cont_without (d : ascii) (t : string) :
  Py.is_cont d = false → all_cont t = true → without d t.
Proof.
  intros Hd. unfold without. induction t as [|c t IH]; simpl; [constructor|].
  intros [Hc Ht]%andb_prop. constructor; [|by apply IH].
  intros ->. congruence.
Qed.

Lemma isspace_cont_start (c : ascii) (t : string) :
  Py.is_cont c = true → Py.isspace (String c t) = false.
Proof.
  unfold Py.isspace, Py.ord, Py.is_cont. intros [H1 H2]%andb_prop.
  apply N.leb_le in H1. apply N.ltb_lt in H2.
  assert ((Py.byte c <? 128)%N = false) as -> by (apply N.ltb_ge; lia).
  assert ((192 <=? Py.byte c)%N = false) as -> by (apply N.leb_gt; lia).
  assert ((224 <=? Py.byte c)%N = false) as -> by (apply N.leb_gt; lia).
  assert ((240 <=? Py.byte c)%N = false) as -> by (apply N.leb_gt; lia).
  by destruct t as [|? [|? [|? [|? ?]]]].
Qed.

Lemma isspace_ascii_start (d c : ascii) (t : string) :
  (Py.byte d < 128)%N → Py.isspace (String d (String c t)) = false.
Proof.
  unfold Py.isspace, Py.ord. intros Hd.
  assert ((192 <=? Py.byte d)%N = false) as -> by (apply N.leb_gt; lia).
  assert ((224 <=? Py.byte d)%N = false) as -> by (apply N.leb_gt; lia).
  assert ((240 <=? Py.byte d)%N = false) as -> by (apply N.leb_gt; lia).
  by destruct t as [|? [|? [|? ?]]].
Qed.

Lemma ascii_not_cont (d : ascii) : (Py.byte d < 128)%N → Py.is_cont d = false.
Proof.
  intros Hd. unfold Py.is_cont.
  assert ((128 <=? Py.byte d)%N = false) as -> by (apply N.leb_gt; lia). done.
Qed.

Lemma blank_cont_start (c : ascii) (s : string) :
  Py.is_cont c = true → ¬ blank (String c s).
Proof.
  intros Hc. unfold blank.
  destruct (utf8_chars_head c s) as (t' & ts & -> & _ & _).
  intros [Hsp _]%Forall_cons. by rewrite isspace_cont_start in Hsp.
Qed.

Lemma blank_empty : blank EmptyString.
Proof. constructor. Qed.

(** Every segment of the text of [l] is blank exactly when every
    character of [l] is white space or the separator. *)
Lemma split_blank_chars (d : ascii) (l : list string) :
  (Py.byte d < 128)%N → char_list l →
  Forall blank (Py.split d (Py.str_of l))
  ↔ Forall (λ t, Py.isspace t = true ∨ t = String d EmptyString) l.
Proof.
  intros Hd. pose proof (ascii_not_cont d Hd) as Hd'.
  induction l as [|t ts IH]; intros Hl.
  - simpl. split; intros _; [constructor|]. repeat constructor.
  - destruct Hl as [Ht Hts].
    specialize (IH (fresh_char_list _ Hts)).
    pose proof (fresh_str_of _ Hts) as Hrest.
    destruct t as [|c t']; [done|]. simpl in Ht.
    rewrite str_of_cons, app_String, Forall_cons, <- IH.
    destruct (decide (c = d)) as [->|Hne].
    + simpl Py.split. rewrite Ascii.eqb_refl, Forall_cons.
      destruct t' as [|c2 t''].
      * rewrite app_empty. split; [by intros [_ ?]; split; [right|]|].
        intros [_ ?]. split; [apply blank_empty|done].
      * simpl in Ht. apply andb_prop in Ht as [Hc2 _].
        rewrite app_String.
        destruct (split_first d c2 (t'' +:+ Py.str_of ts))
          as (seg & segs & ->); [intros ->; congruence|].
        split.
        -- intros (_ & [Hb _]%Forall_cons). by apply blank_cont_start in Hb.
        -- intros [[Hsp|[=]] _]. by rewrite isspace_ascii_start in Hsp.
    + assert (without d (String c t')) as Hwo.
      { constructor; [done|]. by apply all_cont_without. }
      rewrite <- app_String, (split_prefix _ _ _ Hwo).
      destruct (Py.split d (Py.str_of ts)) as [|seg segs] eqn:Hsplit;
        [by apply split_nonempty in Hsplit|].
      pose proof (split_first_fresh _ _ _ _ Hrest Hsplit) as Hseg.
      rewrite !Forall_cons. unfold blank at 1.
      rewrite app_String, utf8_chars_app_char, Forall_cons by done.
      fold (blank seg). split.
      * intros [[Hsp ?] ?]. by repeat split; [left|..].
      * intros [[Hsp|[= ? ?]] [? ?]]; [done|congruence].
Qed.

Lemma split_blank (d : ascii) (s : string) :
  (Py.byte d < 128)%N →
  Forall blank (Py.split d s)
  ↔ Forall (λ t, Py.isspace t = true ∨ t = String d EmptyString)
      (Py.utf8_chars s).
Proof.
  intros Hd. rewrite <- (str_of_utf8_chars s) at 1.
  apply split_blank_chars; [done|apply utf8_chars_char_list].
Qed.

Lemma entries_nil (text : string) :
  entries text = [] ↔ Forall blank (Py.split ";" text).
Proof.
  unfold entries.
  induction (Py.split ";" text) as [|p ps IH].
  - split; intros _; [constructor|done].
  - rewrite filter_cons, Forall_cons, <- IH, <- strip_empty.
    destruct (decide (Py.strip p ≠ EmptyString)) as [Hp|Hp].
    + rewrite fmap_cons. split; [done|]. by intros [? _].
    + split; [|by intros [_ ?]].
      intros Hps. split; [|done].
      by destruct (decide (Py.strip p = EmptyString)).
Qed.

Lemma no_entries_strip (payload : string) :
  no_entries payload → entries (Py.strip payload) = [].
Proof.
  intros Hp. apply entries_nil, split_blank; [done|].
  rewrite utf8_chars_strip. apply Forall_trim.
  destruct Hp as [Hblank|Hnil].
  - unfold blank in Hblank. eapply Forall_impl; [exact Hblank|]. by left.
  - apply split_blank; [done|].
    induction (Py.split ";" payload) as [|p ps IH]; [constructor|].
    rewrite filter_cons in Hnil.
    destruct (decide (¬ blank p)) as [Hp|Hp]; [done|].
    constructor; [|by apply IH].
    by destruct (decide (blank p)).
Qed.

(** ** The helper functions, case by case *)

Ltac sql_unfold :=
  unfold add_or_update_sku, get_stock, list_all, reduce_stock, delete_sku,
    SQL.select_qty, SQL.select_sku, SQL.select_row, SQL.select_all,
    SQL.update_qty, SQL.insert, SQL.delete,
    mbind, Sql_bind, mret, Sql_ret; simpl.

Lemma alter_present (db : table) (sku name : string) (q new_qty : Z) :
  db !! sku = Some (name, q) →
  alter (λ v : string * Z, (v.1, new_qty)) sku db = <[sku := (name, new_qty)]> db.
Proof.
  intros Hsku. apply map_eq. intros k.
  rewrite lookup_alter, lookup_insert.
  destruct (decide (sku = k)) as [->|]; [|done].
  by rewrite Hsku.
Qed.

Lemma add_or_update_sku_eq (db : table) (sku name : string) (qty : Z) :
  add_or_update_sku sku name qty db
  = if decide (fits (qty_of db sku + qty))
    then (Returns true,
          <[sku := (default name (name_of db sku), qty_of db sku + qty)]> db)
    else (Raises OverflowError, db).
Proof.
  unfold name_of, qty_of. sql_unfold.
  destruct (db !! sku) as [[name0 q]|] eqn:Hsku; simpl.
  - destruct (decide (fits (q + qty))); [|done].
    by rewrite (alter_present _ _ _ _ _ Hsku).
  - rewrite !Z.add_0_l. by destruct (decide (fits qty)).
Qed.

Lemma add_or_update_sku_absent_eq (db : table) (sku name : string) (qty : Z) :
  db !! sku = None →
  add_or_update_sku sku name qty db
  = if decide (fits qty) then (Returns true, <[sku := (name, qty)]> db)
    else (Raises OverflowError, db).
Proof.
  intros Hsku. rewrite add_or_update_sku_eq. unfold name_of, qty_of.
  rewrite Hsku. simpl. rewrite !Z.add_0_l. by destruct (decide (fits qty)).
Qed.

Lemma add_or_update_sku_absent (db : table) (sku name : string) (qty : Z) :
  db !! sku = None → fits qty →
  add_or_update_sku sku name qty db = (Returns true, <[sku := (name, qty)]> db).
Proof.
  intros Hsku Hfits. rewrite add_or_update_sku_eq. unfold name_of, qty_of.
  rewrite Hsku. simpl. rewrite !Z.add_0_l. by rewrite decide_True.
Qed.

Lemma add_or_update_sku_present (db : table) (sku name name0 : string) (q qty : Z) :
  db !! sku = Some (name0, q) → fits (q + qty) →
  add_or_update_sku sku name qty db = (Returns true, <[sku := (name0, q + qty)]> db).
Proof.
  intros Hsku Hfits. rewrite add_or_update_sku_eq. unfold name_of, qty_of.
  rewrite Hsku. simpl. by rewrite decide_True.
Qed.

Lemma add_or_update_sku_raises (db : table) (sku name : string) (qty : Z) :
  ¬ fits (qty_of db sku + qty) →
  add_or_update_sku sku name qty db = (Raises OverflowError, db).
Proof. intros Hfits. rewrite add_or_update_sku_eq. by rewrite decide_False. Qed.

Lemma get_stock_eq (db : table) (sku : string) :
  get_stock sku db =
  (Returns (match db !! sku with
            | Some (name, qty) => Some (sku, name, qty)
            | None => None
            end), db).
Proof. sql_unfold. by destruct (db !! sku) as [[name qty]|]. Qed.

Lemma reduce_stock_eq (db : table) (sku : string) (amount : Z) :
  reduce_stock sku amount db
  = match db !! sku with
    | None => (Returns (false, SKU_not_found), db)
    | Some (name, q) =>
        if bool_decide (amount > q)
        then (Returns (false, Not_enough_stock q), db)
        else if decide (fits (q - amount))
             then (Returns (true, New_q (q - amount)),
                   <[sku := (name, q - amount)]> db)
             else (Raises OverflowError, db)
    end.
Proof.
  sql_unfold. destruct (db !! sku) as [[name q]|] eqn:Hsku; simpl; [|done].
  destruct (bool_decide (amount > q)); [done|].
  destruct (decide (fits (q - amount))); [|done].
  by rewrite (alter_present _ _ _ _ _ Hsku).
Qed.

Lemma reduce_stock_absent (db : table) (sku : string) (amount : Z) :
  db !! sku = None →
  reduce_stock sku amount db = (Returns (false, SKU_not_found), db).
Proof. intros Hsku. by rewrite reduce_stock_eq, Hsku. Qed.

Lemma reduce_stock_gt (db : table) (sku name : string) (q amount : Z) :
  db !! sku = Some (name, q) → amount > q →
  reduce_stock sku amount db = (Returns (false, Not_enough_stock q), db).
Proof.
  intros Hsku Hgt. rewrite reduce_stock_eq, Hsku.
  by rewrite bool_decide_eq_true_2.
Qed.

Lemma reduce_stock_le (db : table) (sku name : string) (q amount : Z) :
  db !! sku = Some (name, q) → amount ≤ q → fits (q - amount) →
  reduce_stock sku amount db
  = (Returns (true, New_q (q - amount)), <[sku := (name, q - amount)]> db).
Proof.
  intros Hsku Hle Hfits. rewrite reduce_stock_eq, Hsku.
  rewrite bool_decide_eq_false_2 by lia. by rewrite decide_True.
Qed.

Lemma reduce_stock_raises (db : table) (sku name : string) (q amount : Z) :
  db !! sku = Some (name, q) → amount ≤ q → ¬ fits (q - amount) →
  reduce_stock sku amount db = (Raises OverflowError, db).
Proof.
  intros Hsku Hle Hfits. rewrite reduce_stock_eq, Hsku.
  rewrite bool_decide_eq_false_2 by lia. by rewrite decide_False.
Qed.

Lemma delete_sku_eq (db : table) (sku : string) :
  delete_sku sku db = (Returns (bool_decide (is_Some (db !! sku))), delete sku db).
Proof.
  sql_unfold. destruct (db !! sku) as [v|] eqn:Hsku.
  - by rewrite bool_decide_eq_true_2 by eauto.
  - rewrite bool_decide_eq_false_2 by (by intros [? ?]).
    by rewrite delete_id.
Qed.

Lemma delete_sku_absent (db : table) (sku : string) :
  db !! sku = None → delete_sku sku db = (Returns false, db).
Proof.
  intros Hsku. rewrite delete_sku_eq, Hsku.
  rewrite bool_decide_eq_false_2 by (by intros [? ?]).
  by rewrite delete_id.
Qed.

Lemma delete_sku_present (db : table) (sku : string) :
  is_Some (db !! sku) → delete_sku sku db = (Returns true, delete sku db).
Proof.
  intros Hsku. rewrite delete_sku_eq. by rewrite bool_decide_eq_true_2.
Qed.

(** No call other than an [add_or_update_sku] for [sku] creates a row for
    [sku]. *)
Lemma exec_absent (c : call) (db : table) (sku : string) :
  ¬ adds sku c → db !! sku = None → exec c db !! sku = None.
Proof.
  intros Hc Hsku. destruct c as [sku' name qty|sku'| |sku' amount|sku']; cbn [exec].
  - assert (sku' ≠ sku) as Hne by (intros ->; by apply Hc).
    rewrite add_or_update_sku_eq.
    destruct (decide _); [|done]. simpl. by rewrite lookup_insert_ne.
  - by rewrite get_stock_eq.
  - done.
  - rewrite reduce_stock_eq.
    destruct (db !! sku') as [[name0 q]|] eqn:Hsku'; [|done].
    destruct (bool_decide (amount > q)); [done|].
    destruct (decide _); [|done]. simpl.
    destruct (decide (sku' = sku)) as [->|Hne]; [congruence|].
    by rewrite lookup_insert_ne.
  - rewrite delete_sku_eq. simpl.
    destruct (decide (sku' = sku)) as [->|Hne].
    + apply lookup_delete_eq.
    + by rewrite lookup_delete_ne.
Qed.

Lemma run_absent (cs : list call) (db : table) (sku : string) :
  Forall (λ c, ¬ adds sku c) cs → db !! sku = None → run cs db !! sku = None.
Proof.
  unfold run. revert db.
  induction cs as [|c cs IH]; intros db Hcs Hsku; simpl; [done|].
  apply Forall_cons in Hcs as [Hc Hcs].
  apply IH; [done|]. by apply exec_absent.
Qed.

(** ** The statements of the specification *)

(** C9.  [get_stock] (Lookup) returns the stored row [(sku, name, qty)]
    when [sku] is present and [None] (the handler's "SKU not found") when it
    is absent; it leaves the table as it found it; and on a ledger that
    started empty, after any sequence of calls none of which inserted
    [sku], it returns [None]. *)
Theorem get_stock_lookup (db : table) (sku : string) :
  (∀ name qty, db !! sku = Some (name, qty) →
     get_stock sku db = (Returns (Some (sku, name, qty)), db))
  ∧ (db !! sku = None → get_stock sku db = (Returns None, db))
  ∧ (get_stock sku db).2 = db
  ∧ (∀ cs, Forall (λ c, ¬ adds sku c) cs →
       get_stock sku (run cs ∅) = (Returns None, run cs ∅)).
Proof.
  split; [|split; [|split]].
  - intros name qty Hsku. by rewrite get_stock_eq, Hsku.
  - intros Hsku. by rewrite get_stock_eq, Hsku.
  - by rewrite get_stock_eq.
  - intros cs Hcs. rewrite get_stock_eq.
    by rewrite (run_absent cs ∅ sku Hcs (lookup_empty sku)).
Qed.

Lemma get_stock_lookup_witness :
  get_stock "A" {["A" := ("Apple", 4)]}
  = (Returns (Some ("A", "Apple", 4)), {["A" := ("Apple", 4)]})
  ∧ get_stock "B" {["A" := ("Apple", 4)]} = (Returns None, {["A" := ("Apple", 4)]})
  ∧ get_stock "B" (run [Call_add "A" "Apple" 4; Call_reduce "B" 1; Call_delete "A"] ∅)
    = (Returns None, run [Call_add "A" "Apple" 4; Call_reduce "B" 1; Call_delete "A"] ∅).
Proof.
  split; [|split].
  - apply (proj1 (get_stock_lookup {["A" := ("Apple", 4)]} "A")). reflexivity.
  - apply (proj1 (proj2 (get_stock_lookup {["A" := ("Apple", 4)]} "B"))). reflexivity.
  - apply (proj2 (proj2 (proj2 (get_stock_lookup ∅ "B")))).
    repeat constructor; simpl; intros H; discriminate H || exact H.
Defined.

(** C1, as stated, fails: a first quantity of 2^63 does not fit an
    INTEGER column, the INSERT raises [OverflowError] and nothing is
    stored; and with a first quantity of 2^63 - 1 the second call, adding
    1, raises at the UPDATE and the stored quantity stays at the first
    one. *)
Lemma add_or_update_sku_overflow_counterexample :
  add_or_update_sku "X" "Widget" (2 ^ 63) ∅ = (Raises OverflowError, ∅)
  ∧ (_ ← add_or_update_sku "X" "Widget" (2 ^ 63 - 1);
     add_or_update_sku "X" "Gizmo" 1) ∅
    = (Raises OverflowError, {["X" := ("Widget", 2 ^ 63 - 1)]})
  ∧ ({["X" := ("Widget", 2 ^ 63 - 1)]} : table) !! "X"
    ≠ Some ("Widget", 2 ^ 63 - 1 + 1).
Proof. repeat split; vm_compute; (reflexivity || discriminate). Qed.

(** C1, amended.  [add_or_update_sku] (Upsert) on an absent [sku]
    followed by a second one for the same [sku], with [d1] and [d1 + d2]
    in the signed 64-bit range, leaves the quantity [d1 + d2] and the name
    given at the first, creating call; the second name is ignored.  No
    other row is touched, both calls return [True], and [get_stock] then
    reads [(sku, name, d1 + d2)]. *)
Theorem add_or_update_sku_twice
    (db : table) (sku name name2 : string) (d1 d2 : Z) :
  db !! sku = None → fits d1 → fits (d1 + d2) →
  (_ ← add_or_update_sku sku name d1; add_or_update_sku sku name2 d2) db
  = (Returns true, <[sku := (name, d1 + d2)]> db)
  ∧ (_ ← add_or_update_sku sku name d1;
     _ ← add_or_update_sku sku name2 d2;
     get_stock sku) db
    = (Returns (Some (sku, name, d1 + d2)), <[sku := (name, d1 + d2)]> db).
Proof.
  intros Hsku Hd1 Hd12.
  assert ((_ ← add_or_update_sku sku name d1; add_or_update_sku sku name2 d2) db
          = (Returns true, <[sku := (name, d1 + d2)]> db)) as Htwice.
  { unfold mbind at 1, Sql_bind at 1.
    rewrite (add_or_update_sku_absent _ _ _ _ Hsku Hd1).
    rewrite (add_or_update_sku_present _ sku name2 name d1 d2)
      by (apply lookup_insert_eq || done).
    by rewrite insert_insert_eq. }
  split; [exact Htwice|].
  unfold mbind at 1, Sql_bind at 1.
  rewrite (add_or_update_sku_absent _ _ _ _ Hsku Hd1).
  unfold mbind at 1, Sql_bind at 1.
  rewrite (add_or_update_sku_present _ sku name2 name d1 d2)
    by (apply lookup_insert_eq || done).
  rewrite insert_insert_eq, get_stock_eq.
  by rewrite lookup_insert_eq.
Qed.

Lemma add_or_update_sku_twice_witness :
  (_ ← add_or_update_sku "X" "Widget" 5; add_or_update_sku "X" "Gizmo" 3)
    {["Y" := ("Gadget", 1)]}
  = (Returns true, <["X" := ("Widget", 5 + 3)]> {["Y" := ("Gadget", 1)]})
  ∧ (_ ← add_or_update_sku "X" "Widget" 5;
     _ ← add_or_update_sku "X" "Gizmo" 3;
     get_stock "X") {["Y" := ("Gadget", 1)]}
    = (Returns (Some ("X", "Widget", 5 + 3)),
       <["X" := ("Widget", 5 + 3)]> {["Y" := ("Gadget", 1)]}).
Proof.
  apply (add_or_update_sku_twice {["Y" := ("Gadget", 1)]} "X" "Widget" "Gizmo" 5 3);
    [reflexivity | unfold fits; lia | unfold fits; lia].
Defined.

(** C3.  [reduce_stock] (Decrement) with [amount] above the current
    quantity [q] of an existing [sku] returns the failure carrying [q]
    ("Not enough stock (have q)") and leaves the whole table unchanged; for
    an absent [sku] it returns "SKU not found" and leaves the table
    unchanged. *)
Theorem reduce_stock_rejects (db : table) (sku : string) (amount : Z) :
  (∀ name q, db !! sku = Some (name, q) → amount > q →
     reduce_stock sku amount db = (Returns (false, Not_enough_stock q), db))
  ∧ (db !! sku = None →
     reduce_stock sku amount db = (Returns (false, SKU_not_found), db)).
Proof.
  split.
  - intros name q Hsku Hgt. by apply (reduce_stock_gt db sku name).
  - apply reduce_stock_absent.
Qed.

Lemma reduce_stock_rejects_witness :
  reduce_stock "X" 100 {["X" := ("Widget", 8)]}
  = (Returns (false, Not_enough_stock 8), {["X" := ("Widget", 8)]})
  ∧ reduce_stock "Y" 100 {["X" := ("Widget", 8)]}
    = (Returns (false, SKU_not_found), {["X" := ("Widget", 8)]}).
Proof.
  split.
  - apply (proj1 (reduce_stock_rejects {["X" := ("Widget", 8)]} "X" 100) "Widget" 8);
      [reflexivity | lia].
  - apply (proj2 (reduce_stock_rejects {["X" := ("Widget", 8)]} "Y" 100)).
    reflexivity.
Defined.

(** C4.  [reduce_stock] with [0 <= amount <= q] on an existing [sku] of
    quantity [q] (a quantity the column holds) stores [q - amount] (name
    and other rows untouched) and returns it, and a [get_stock] right
    after it reads exactly [q - amount]. *)
Theorem reduce_stock_applies
    (db : table) (sku name : string) (q amount : Z) :
  db !! sku = Some (name, q) → fits q → 0 ≤ amount ≤ q →
  reduce_stock sku amount db
  = (Returns (true, New_q (q - amount)), <[sku := (name, q - amount)]> db)
  ∧ (_ ← reduce_stock sku amount; get_stock sku) db
    = (Returns (Some (sku, name, q - amount)), <[sku := (name, q - amount)]> db).
Proof.
  intros Hsku Hq [Hamount Hle].
  assert (fits (q - amount)) as Hfits by (unfold fits in *; lia).
  split; [by apply reduce_stock_le|].
  unfold mbind, Sql_bind.
  rewrite (reduce_stock_le _ _ _ _ _ Hsku Hle Hfits), get_stock_eq.
  by rewrite lookup_insert_eq.
Qed.

Lemma reduce_stock_applies_witness :
  reduce_stock "X" 3 {["X" := ("Widget", 8)]}
  = (Returns (true, New_q (8 - 3)), <["X" := ("Widget", 8 - 3)]> {["X" := ("Widget", 8)]})
  ∧ (_ ← reduce_stock "X" 3; get_stock "X") {["X" := ("Widget", 8)]}
    = (Returns (Some ("X", "Widget", 8 - 3)),
       <["X" := ("Widget", 8 - 3)]> {["X" := ("Widget", 8)]}).
Proof.
  apply (reduce_stock_applies {["X" := ("Widget", 8)]} "X" "Widget" 8 3);
    [reflexivity | unfold fits; lia | lia].
Defined.

(** C6.  [delete_sku] (Delete) on an absent [sku] returns [False] and
    leaves the table unchanged; on a present [sku] it returns [True] and
    nothing else, removes that row only, and a [get_stock] after it returns
    [None]. *)
Theorem delete_sku_spec (db : table) (sku : string) :
  (db !! sku = None → delete_sku sku db = (Returns false, db))
  ∧ (is_Some (db !! sku) →
     delete_sku sku db = (Returns true, delete sku db)
     ∧ (_ ← delete_sku sku; get_stock sku) db = (Returns None, delete sku db)).
Proof.
  split; [apply delete_sku_absent|].
  intros Hsku. split; [by apply delete_sku_present|].
  unfold mbind, Sql_bind.
  rewrite (delete_sku_present _ _ Hsku), get_stock_eq.
  by rewrite lookup_delete_eq.
Qed.

Lemma delete_sku_spec_witness :
  delete_sku "Y" {["X" := ("Widget", 8)]} = (Returns false, {["X" := ("Widget", 8)]})
  ∧ delete_sku "X" {["X" := ("Widget", 8)]}
    = (Returns true, delete "X" {["X" := ("Widget", 8)]})
  ∧ (_ ← delete_sku "X"; get_stock "X") {["X" := ("Widget", 8)]}
    = (Returns None, delete "X" {["X" := ("Widget", 8)]}).
Proof.
  split.
  - apply (proj1 (delete_sku_spec {["X" := ("Widget", 8)]} "Y")). reflexivity.
  - apply (proj2 (delete_sku_spec {["X" := ("Widget", 8)]} "X")).
    exists ("Widget", 8). reflexivity.
Defined.

(** C10, as stated, fails: on a row of quantity 2^63 - 1 a sale of -1
    passes the [amount > current] test, but the new quantity 2^63 does not
    fit, the UPDATE raises [OverflowError] and the quantity stays as it
    was: the call does not succeed. *)
Lemma reduce_stock_negative_overflow_counterexample :
  0 ≤ 2 ^ 63 - 1 ∧ -1 < 0
  ∧ reduce_stock "X" (-1) {["X" := ("Widget", 2 ^ 63 - 1)]}
    = (Raises OverflowError, {["X" := ("Widget", 2 ^ 63 - 1)]}).
Proof. repeat split; vm_compute; (reflexivity || discriminate). Qed.

(** C10, amended.  [reduce_stock] does not check [amount >= 0]: on an
    existing [sku] of quantity [q >= 0], a negative [amount] passes the
    [amount > current] test and, when [q - amount] is in the signed 64-bit
    range, the call returns success and stores [q - amount], which is
    strictly more than [q]. *)
Theorem reduce_stock_negative_amount
    (db : table) (sku name : string) (q amount : Z) :
  db !! sku = Some (name, q) → 0 ≤ q → amount < 0 → fits (q - amount) →
  reduce_stock sku amount db
  = (Returns (true, New_q (q - amount)), <[sku := (name, q - amount)]> db)
  ∧ q - amount > q.
Proof.
  intros Hsku Hq Hneg Hfits. split; [|lia].
  apply reduce_stock_le; [done|lia|done].
Qed.

Lemma reduce_stock_negative_amount_witness :
  reduce_stock "X" (-3) {["X" := ("Widget", 8)]}
  = (Returns (true, New_q (8 - -3)),
     <["X" := ("Widget", 8 - -3)]> {["X" := ("Widget", 8)]})
  ∧ 8 - -3 > 8.
Proof.
  apply (reduce_stock_negative_amount {["X" := ("Widget", 8)]} "X" "Widget" 8 (-3));
    [reflexivity | lia | lia | unfold fits; lia].
Defined.

(** ** Enumeration in key order *)

Global Instance row_le_total : Total row_le.
Proof. intros r1 r2. unfold row_le. apply (total String.le). Qed.

Global Instance row_le_trans : Transitive row_le.
Proof. intros r1 r2 r3. unfold row_le. apply transitivity. Qed.

Lemma row_le_ne_lt (r1 r2 : stock_row) :
  row_le r1 r2 → r1.1.1 ≠ r2.1.1 → row_lt r1 r2.
Proof.
  unfold row_le, row_lt, String.le, String.leb, String.ltb.
  intros Hle Hne.
  destruct (String.compare r1.1.1 r2.1.1) eqn:Hcmp; [|done|done].
  by apply String.compare_eq_iff in Hcmp.
Qed.

Lemma elem_of_rows (db : table) (sku name : string) (qty : Z) :
  (sku, name, qty) ∈ rows db ↔ db !! sku = Some (name, qty).
Proof.
  unfold rows. rewrite list_elem_of_fmap. split.
  - intros [[k [n q]] [Heq Hin]]. simpl in Heq.
    apply elem_of_map_to_list in Hin. congruence.
  - intros Hsku. exists (sku, (name, qty)). split; [done|].
    by apply elem_of_map_to_list.
Qed.

Lemma rows_keys (db : table) : (rows db).*1.*1 = (map_to_list db).*1.
Proof.
  unfold rows. rewrite <- !list_fmap_compose. by apply list_fmap_ext.
Qed.

(** A list sorted by [row_le] whose keys are pairwise distinct is strictly
    ascending. *)
Lemma StronglySorted_row_lt (l : list stock_row) :
  StronglySorted row_le l → NoDup (l.*1.*1) → StronglySorted row_lt l.
Proof.
  induction 1 as [|r l Hl IH Hr]; intros Hnd; [constructor|].
  rewrite !fmap_cons in Hnd. apply NoDup_cons in Hnd as [Hr' Hnd].
  constructor; [by apply IH|].
  apply Forall_forall. intros r' Hin.
  apply row_le_ne_lt.
  - by apply (proj1 (Forall_forall _ _) Hr).
  - intros Heq. apply Hr'. rewrite Heq.
    apply list_elem_of_fmap. exists r'.1. split; [done|].
    apply list_elem_of_fmap. by exists r'.
Qed.

(** C7.  [list_all] (Enumerate) returns exactly the rows of the table,
    each once, in strictly ascending lexicographic order of [sku], and
    leaves the table unchanged; on the empty table it returns the empty
    list (a list, where [get_stock] returns [None]); after inserting the
    keys "B", "A", "C" into an empty table it returns them in the order
    "A", "B", "C" (the three calls insert when their quantities are ones
    the column holds, and otherwise one of them raises). *)
Theorem list_all_sorted (db : table) :
  (∃ rows0,
     list_all db = (Returns rows0, db)
     ∧ (∀ sku name qty, (sku, name, qty) ∈ rows0 ↔ db !! sku = Some (name, qty))
     ∧ length rows0 = size db
     ∧ StronglySorted row_lt rows0)
  ∧ list_all ∅ = (Returns [], ∅)
  ∧ (∀ nB nA nC qB qA qC,
       ((_ ← add_or_update_sku "B" nB qB;
         _ ← add_or_update_sku "A" nA qA;
         _ ← add_or_update_sku "C" nC qC;
         list_all) ∅).1
       = if decide (fits qB ∧ fits qA ∧ fits qC)
         then Returns [("A", nA, qA); ("B", nB, qB); ("C", nC, qC)]
         else Raises OverflowError).
Proof.
  split; [|split].
  - exists (merge_sort row_le (rows db)).
    assert (merge_sort row_le (rows db) ≡ₚ rows db) as Hperm
      by apply merge_sort_Permutation.
    split; [done|]. split; [|split].
    + intros sku name qty. rewrite Hperm. apply elem_of_rows.
    + rewrite Hperm. unfold rows. rewrite length_fmap.
      apply length_map_to_list.
    + apply StronglySorted_row_lt.
      * apply (StronglySorted_merge_sort row_le).
      * rewrite Hperm, rows_keys. apply NoDup_fst_map_to_list.
  - reflexivity.
  - intros nB nA nC qB qA qC.
    unfold mbind at 1, Sql_bind at 1.
    rewrite add_or_update_sku_absent_eq by (vm_compute; reflexivity).
    destruct (decide (fits qB)) as [HB|HB];
      [|rewrite decide_False by (by intros (? & _)); done].
    unfold mbind at 1, Sql_bind at 1.
    rewrite add_or_update_sku_absent_eq by (vm_compute; reflexivity).
    destruct (decide (fits qA)) as [HA|HA];
      [|rewrite decide_False by (by intros (_ & ? & _)); done].
    unfold mbind at 1, Sql_bind at 1.
    rewrite add_or_update_sku_absent_eq by (vm_compute; reflexivity).
    destruct (decide (fits qC)) as [HC|HC];
      [|rewrite decide_False by (by intros (_ & _ & ?)); done].
    rewrite decide_True by done.
    vm_compute. reflexivity.
Qed.

Lemma list_all_sorted_witness :
  ((_ ← add_or_update_sku "B" "Beans" 2;
    _ ← add_or_update_sku "A" "Apple" 4;
    _ ← add_or_update_sku "C" "Corn" 1;
    list_all) ∅).1
  = Returns [("A", "Apple", 4); ("B", "Beans", 2); ("C", "Corn", 1)].
Proof.
  exact (proj2 (proj2 (list_all_sorted ∅)) "Beans" "Apple" "Corn" 2 4 1).
Defined.

(** ** Bulk commands *)

(** C8.  When the payload (what follows the first space of the message) is
    empty or white space only, or consists of blank segments only once
    split on [;], both [addbulk_cmd] and [sellbulk_cmd] answer with a
    single whole-batch reply (the usage message when the trimmed payload is
    empty, "No valid entries found." otherwise), never with per-entry
    lines, and leave the table unchanged. *)
Theorem empty_batch (message_text : string) (db : table) :
  no_entries (Py.partition_tail " " message_text) →
  addbulk_cmd message_text db
  = (Returns
       (if decide (Py.strip (Py.partition_tail " " message_text) = EmptyString)
        then Usage_addbulk else No_valid_entries), db)
  ∧ sellbulk_cmd message_text db
    = (Returns
         (if decide (Py.strip (Py.partition_tail " " message_text) = EmptyString)
          then Usage_sellbulk else No_valid_entries), db)
  ∧ replied_EmptyBatch (addbulk_cmd message_text db).1
  ∧ replied_EmptyBatch (sellbulk_cmd message_text db).1.
Proof.
  intros Hnil%no_entries_strip.
  unfold addbulk_cmd, sellbulk_cmd. rewrite Hnil.
  destruct (decide (Py.strip (Py.partition_tail " " message_text) = EmptyString));
    by repeat split.
Qed.

Lemma empty_batch_witness :
  (addbulk_cmd "/addbulk  ; ;; " {["X" := ("Widget", 8)]}
   = (Returns No_valid_entries, {["X" := ("Widget", 8)]})
   ∧ sellbulk_cmd "/addbulk  ; ;; " {["X" := ("Widget", 8)]}
     = (Returns No_valid_entries, {["X" := ("Widget", 8)]})
   ∧ replied_EmptyBatch (addbulk_cmd "/addbulk  ; ;; " {["X" := ("Widget", 8)]}).1
   ∧ replied_EmptyBatch (sellbulk_cmd "/addbulk  ; ;; " {["X" := ("Widget", 8)]}).1)
  ∧ (addbulk_cmd ("/sellbulk " +:+ String "194" (String "160" " ")
                    +:+ String "227" (String "128" (String "128" EmptyString)))
       {["X" := ("Widget", 8)]}
     = (Returns Usage_addbulk, {["X" := ("Widget", 8)]})
     ∧ sellbulk_cmd ("/sellbulk " +:+ String "194" (String "160" " ")
                       +:+ String "227" (String "128" (String "128" EmptyString)))
         {["X" := ("Widget", 8)]}
       = (Returns Usage_sellbulk, {["X" := ("Widget", 8)]})
     ∧ replied_EmptyBatch
         (addbulk_cmd ("/sellbulk " +:+ String "194" (String "160" " ")
                         +:+ String "227" (String "128" (String "128" EmptyString)))
            {["X" := ("Widget", 8)]}).1
     ∧ replied_EmptyBatch
         (sellbulk_cmd ("/sellbulk " +:+ String "194" (String "160" " ")
                          +:+ String "227" (String "128" (String "128" EmptyString)))
            {["X" := ("Widget", 8)]}).1).
Proof.
  split.
  - apply (empty_batch "/addbulk  ; ;; " {["X" := ("Widget", 8)]}).
    right. vm_compute. reflexivity.
  - apply (empty_batch ("/sellbulk " +:+ String "194" (String "160" " ")
                          +:+ String "227" (String "128" (String "128" EmptyString)))
             {["X" := ("Widget", 8)]}).
    left. apply (bool_decide_unpack _). vm_compute. exact I.
Defined.

(** The segments [;], U+3000, [;] of the payload are all blank: the code
    answers "No valid entries found." *)
Example empty_batch_ideographic_space :
  addbulk_cmd ("/addbulk ;" +:+ String "227" (String "128" (String "128" ";"))) ∅
  = (Returns No_valid_entries, ∅).
Proof. vm_compute. reflexivity. Qed.

Section for_each_facts.
Context {A B : Type} (body : A → Sql B).

Lemma for_each_cons (x : A) (xs : list A) (db : table) :
  for_each body (x :: xs) db
  = match body x db with
    | (Returns line, db1) =>
        match for_each body xs db1 with
        | (Returns lines, db2) => (Returns (line :: lines), db2)
        | (Raises e, db2) => (Raises e, db2)
        end
    | (Raises e, db1) => (Raises e, db1)
    end.
Proof.
  simpl. unfold mbind, Sql_bind, mret, Sql_ret.
  destruct (body x db) as [[line|e] db1]; [|done].
  by destruct (for_each body xs db1) as [[lines|e] db2].
Qed.

(** The loop over [pre ++ post] is the loop over [pre], then, unless it
    raised, the loop over [post] in the table that leaves. *)
Lemma for_each_app (pre post : list A) (db : table) :
  for_each body (pre ++ post) db
  = match for_each body pre db with
    | (Returns lines1, db1) =>
        match for_each body post db1 with
        | (Returns lines2, db2) => (Returns (lines1 ++ lines2), db2)
        | (Raises e, db2) => (Raises e, db2)
        end
    | (Raises e, db1) => (Raises e, db1)
    end.
Proof.
  revert db. induction pre as [|x pre IH]; intros db.
  - simpl. unfold mret, Sql_ret.
    by destruct (for_each body post db) as [[lines2|e] db2].
  - rewrite <- app_comm_cons, !for_each_cons.
    destruct (body x db) as [[line|e] db0]; [|done].
    rewrite IH.
    destruct (for_each body pre db0) as [[lines1|e] db1]; [|done].
    by destruct (for_each body post db1) as [[lines2|e] db2].
Qed.

Lemma for_each_length (xs : list A) (db db' : table) (lines : list B) :
  for_each body xs db = (Returns lines, db') → length lines = length xs.
Proof.
  revert db lines. induction xs as [|x xs IH]; intros db lines.
  - simpl. unfold mret, Sql_ret. by intros [= <- _].
  - rewrite for_each_cons.
    destruct (body x db) as [[line|e] db0]; [|done].
    specialize (IH db0).
    destruct (for_each body xs db0) as [[lines0|e] db1]; [|done].
    intros [= <- <-]. simpl. by rewrite (IH lines0 eq_refl).
Qed.

(** When every line of a run satisfies [bad], and a body whose line
    satisfies [bad] leaves the table as it found it, so does the run. *)
Lemma for_each_unchanged (bad : B → Prop) (xs : list A)
    (db db' : table) (lines : list B) :
  (∀ x d line d', body x d = (Returns line, d') → bad line → d' = d) →
  for_each body xs db = (Returns lines, db') →
  Forall bad lines → db' = db.
Proof.
  intros Hbody. revert db lines.
  induction xs as [|x xs IH]; intros db lines.
  - simpl. unfold mret, Sql_ret. by intros [= _ <-].
  - rewrite for_each_cons.
    destruct (body x db) as [[line|e] db0] eqn:Hx; [|done].
    specialize (IH db0).
    destruct (for_each body xs db0) as [[lines0|e] db1]; [|done].
    intros [= <- <-] [Hline Hlines]%Forall_cons.
    rewrite (IH lines0 eq_refl Hlines). by apply (Hbody x db line).
Qed.

(** A loop that raises stopped at the first entry whose body raised. *)
Lemma for_each_raises (xs : list A) (db db' : table) (e : exn) :
  for_each body xs db = (Raises e, db') →
  ∃ pre x post lines1 db1,
    xs = pre ++ x :: post
    ∧ for_each body pre db = (Returns lines1, db1)
    ∧ body x db1 = (Raises e, db').
Proof.
  revert db. induction xs as [|x xs IH]; intros db; [done|].
  rewrite for_each_cons.
  destruct (body x db) as [[line|e0] db0] eqn:Hx.
  - specialize (IH db0).
    destruct (for_each body xs db0) as [[lines0|e1] db1]; [done|].
    intros [= -> ->].
    destruct (IH eq_refl) as (pre & y & post & lines1 & db2 & -> & Hpre & Hy).
    exists (x :: pre), y, post, (line :: lines1), db2.
    split; [done|]. split; [|done].
    by rewrite for_each_cons, Hx, Hpre.
  - intros [= -> ->]. by exists [], x, xs, [], db.
Qed.
End for_each_facts.

Lemma for_each_sequential_no_rollback
    (body : string → Sql result_line) (parts : list string) (db : table) :
  (∀ e d line d', body e d = (Returns line, d') → failed line → d' = d) →
  (∀ e d x d', body e d = (Raises x, d') → d' = d) →
  sequential_no_rollback body parts db.
Proof.
  intros Hfailed Hraises. split.
  - intros lines db' Hrun. split; [by apply (for_each_length body parts db db')|].
    intros pre e post ->.
    rewrite for_each_app in Hrun.
    destruct (for_each body pre db) as [[lines1|x] db1] eqn:Hpre; [|done].
    rewrite for_each_cons in Hrun.
    destruct (body e db1) as [[line|x] db2] eqn:He; [|done].
    destruct (for_each body post db2) as [[lines2|x] db3] eqn:Hpost; [|done].
    injection Hrun as <- <-.
    exists lines1, db1, line, db2, lines2.
    do 4 (split; [done|]). split; [|split].
    + by apply (for_each_length body pre db db1).
    + by apply (Hfailed e db1).
    + by apply (for_each_unchanged body failed post db2 db3 lines2).
  - intros x db' Hrun.
    destruct (for_each_raises body parts db db' x Hrun)
      as (pre & e & post & lines1 & db1 & -> & Hpre & He).
    pose proof (Hraises e db1 x db' He) as ->.
    by exists pre, e, post, lines1.
Qed.

Lemma addbulk_entry_eq (entry : string) (db : table) :
  addbulk_entry entry db
  = match fields entry with
    | [sku; name; qty_str] =>
        match Py.int qty_str with
        | None => (Returns (Qty_must_be_a_number sku qty_str), db)
        | Some qty =>
            if decide (fits (qty_of db sku + qty))
            then (Returns (Added sku qty name),
                  <[sku := (default name (name_of db sku), qty_of db sku + qty)]> db)
            else (Raises OverflowError, db)
        end
    | _ => (Returns (Invalid_format entry), db)
    end.
Proof.
  unfold addbulk_entry.
  destruct (fields entry) as [|sku [|name [|qty_str [|? ?]]]]; try done.
  destruct (Py.int qty_str) as [qty|]; [|done].
  unfold mbind, Sql_bind, mret, Sql_ret. rewrite add_or_update_sku_eq.
  by destruct (decide _).
Qed.

Lemma sellbulk_entry_eq (entry : string) (db : table) :
  sellbulk_entry entry db
  = match fields entry with
    | [sku; qty_str] =>
        match Py.int qty_str with
        | None => (Returns (Qty_must_be_a_number sku qty_str), db)
        | Some qty =>
            match db !! sku with
            | None => (Returns (Sell_failed sku SKU_not_found), db)
            | Some (name, q) =>
                if bool_decide (qty > q)
                then (Returns (Sell_failed sku (Not_enough_stock q)), db)
                else if decide (fits (q - qty))
                     then (Returns (Sold sku qty (New_q (q - qty))),
                           <[sku := (name, q - qty)]> db)
                     else (Raises OverflowError, db)
            end
        end
    | _ => (Returns (Invalid_format entry), db)
    end.
Proof.
  unfold sellbulk_entry.
  destruct (fields entry) as [|sku [|qty_str [|? ?]]]; try done.
  destruct (Py.int qty_str) as [qty|]; [|done].
  unfold mbind, Sql_bind, mret, Sql_ret. rewrite reduce_stock_eq.
  destruct (db !! sku) as [[name q]|]; [|done].
  destruct (bool_decide (qty > q)); [done|].
  by destruct (decide _).
Qed.

Lemma addbulk_entry_failed (entry : string) (db db' : table) (line : result_line) :
  addbulk_entry entry db = (Returns line, db') → failed line → db' = db.
Proof.
  rewrite addbulk_entry_eq.
  destruct (fields entry) as [|sku [|name [|qty_str [|? ?]]]];
    try by intros [= _ <-].
  destruct (Py.int qty_str) as [qty|]; [|by intros [= _ <-]].
  destruct (decide _); [|done]. by intros [= <- _] [].
Qed.

Lemma addbulk_entry_raises (entry : string) (db db' : table) (x : exn) :
  addbulk_entry entry db = (Raises x, db') → db' = db.
Proof.
  rewrite addbulk_entry_eq.
  destruct (fields entry) as [|sku [|name [|qty_str [|? ?]]]]; try done.
  destruct (Py.int qty_str) as [qty|]; [|done].
  destruct (decide _); [done|]. by intros [= _ <-].
Qed.

Lemma sellbulk_entry_failed (entry : string) (db db' : table) (line : result_line) :
  sellbulk_entry entry db = (Returns line, db') → failed line → db' = db.
Proof.
  rewrite sellbulk_entry_eq.
  destruct (fields entry) as [|sku [|qty_str [|? ?]]]; try by intros [= _ <-].
  destruct (Py.int qty_str) as [qty|]; [|by intros [= _ <-]].
  destruct (db !! sku) as [[name q]|]; [|by intros [= _ <-]].
  destruct (bool_decide (qty > q)); [by intros [= _ <-]|].
  destruct (decide _); [|done]. by intros [= <- _] [].
Qed.

Lemma sellbulk_entry_raises (entry : string) (db db' : table) (x : exn) :
  sellbulk_entry entry db = (Raises x, db') → db' = db.
Proof.
  rewrite sellbulk_entry_eq.
  destruct (fields entry) as [|sku [|qty_str [|? ?]]]; try done.
  destruct (Py.int qty_str) as [qty|]; [|done].
  destruct (db !! sku) as [[name q]|]; [|done].
  destruct (bool_decide (qty > q)); [done|].
  destruct (decide _); [done|]. by intros [= _ <-].
Qed.

Lemma addbulk_cmd_joined (message_text : string) (db : table) :
  entries (Py.strip (Py.partition_tail " " message_text)) ≠ [] →
  addbulk_cmd message_text db
  = match for_each addbulk_entry
            (entries (Py.strip (Py.partition_tail " " message_text))) db with
    | (Returns results, db') => (Returns (Joined results), db')
    | (Raises x, db') => (Raises x, db')
    end.
Proof.
  unfold addbulk_cmd. intros Hparts.
  destruct (decide (Py.strip (Py.partition_tail " " message_text) = EmptyString))
    as [Heq|_]; [by rewrite Heq in Hparts|].
  destruct (entries (Py.strip (Py.partition_tail " " message_text))) as [|e es];
    [done|].
  unfold mbind at 1, Sql_bind at 1, mret, Sql_ret.
  by destruct (for_each addbulk_entry (e :: es) db) as [[results|x] db'].
Qed.

Lemma sellbulk_cmd_joined (message_text : string) (db : table) :
  entries (Py.strip (Py.partition_tail " " message_text)) ≠ [] →
  sellbulk_cmd message_text db
  = match for_each sellbulk_entry
            (entries (Py.strip (Py.partition_tail " " message_text))) db with
    | (Returns results, db') => (Returns (Joined results), db')
    | (Raises x, db') => (Raises x, db')
    end.
Proof.
  unfold sellbulk_cmd. intros Hparts.
  destruct (decide (Py.strip (Py.partition_tail " " message_text) = EmptyString))
    as [Heq|_]; [by rewrite Heq in Hparts|].
  destruct (entries (Py.strip (Py.partition_tail " " message_text))) as [|e es];
    [done|].
  unfold mbind at 1, Sql_bind at 1, mret, Sql_ret.
  by destruct (for_each sellbulk_entry (e :: es) db) as [[results|x] db'].
Qed.

(** C2, as stated, fails: the helper is called outside the [try], so
    when the quantity of an entry does not fit an INTEGER column the
    [OverflowError] ends the handler.  In the first batch the entry for Y
    is never attempted (run on its own it adds Y) and there is no outcome
    at all; in the second the addition to Y stays in the table, and again
    no outcome is returned, neither for Y nor for X. *)
Lemma bulk_overflow_counterexample :
  entries (Py.strip (Py.partition_tail " "
             "/addbulk X|W|9223372036854775808; Y|G|5"))
  = ["X|W|9223372036854775808"; "Y|G|5"]
  ∧ addbulk_cmd "/addbulk X|W|9223372036854775808; Y|G|5" ∅
    = (Raises OverflowError, ∅)
  ∧ addbulk_entry "Y|G|5" ∅ = (Returns (Added "Y" 5 "G"), {["Y" := ("G", 5)]})
  ∧ addbulk_cmd "/addbulk Y|G|5; X|W|9223372036854775808" ∅
    = (Raises OverflowError, {["Y" := ("G", 5)]})
  ∧ sellbulk_cmd "/sellbulk X|-1; X|1" {["X" := ("W", 2 ^ 63 - 1)]}
    = (Raises OverflowError, {["X" := ("W", 2 ^ 63 - 1)]}).
Proof. repeat split; vm_compute; reflexivity. Qed.

(** C2, amended.  Both bulk handlers run their entries in input order,
    each in the table the previous ones left.  An entry that is malformed,
    whose quantity is not an integer or whose sale is refused gets its
    failure line, changes nothing and does not stop the loop, and no later
    failure undoes what an earlier entry stored.  When no entry raises,
    the handler replies with one line per entry in the same order.  When
    storing the quantity of an entry raises [OverflowError], the handler
    stops at that entry and sends no reply: the entries before it were
    run and what they stored stays, the entry itself changes nothing and
    the entries after it are not attempted.  In particular,
    "X|Widget|5; Y|Gadget|bad; X|Widget|3" on the empty table gives three
    lines in order: added X (+5, stored quantity 5), quantity "bad" of Y is
    not a number (table unchanged), added X (+3, stored quantity 8). *)
Theorem bulk_sequential_no_rollback (message_text : string) (db : table) :
  entries (Py.strip (Py.partition_tail " " message_text)) ≠ [] →
  (addbulk_cmd message_text db
   = match for_each addbulk_entry
             (entries (Py.strip (Py.partition_tail " " message_text))) db with
     | (Returns lines, db') => (Returns (Joined lines), db')
     | (Raises x, db') => (Raises x, db')
     end
   ∧ sequential_no_rollback addbulk_entry
       (entries (Py.strip (Py.partition_tail " " message_text))) db)
  ∧ (sellbulk_cmd message_text db
     = match for_each sellbulk_entry
               (entries (Py.strip (Py.partition_tail " " message_text))) db with
       | (Returns lines, db') => (Returns (Joined lines), db')
       | (Raises x, db') => (Raises x, db')
       end
     ∧ sequential_no_rollback sellbulk_entry
         (entries (Py.strip (Py.partition_tail " " message_text))) db)
  ∧ (entries (Py.strip (Py.partition_tail " "
               "/addbulk X|Widget|5; Y|Gadget|bad; X|Widget|3"))
     = ["X|Widget|5"; "Y|Gadget|bad"; "X|Widget|3"]
     ∧ addbulk_entry "X|Widget|5" ∅
       = (Returns (Added "X" 5 "Widget"), {["X" := ("Widget", 5)]})
     ∧ addbulk_entry "Y|Gadget|bad" {["X" := ("Widget", 5)]}
       = (Returns (Qty_must_be_a_number "Y" "bad"), {["X" := ("Widget", 5)]})
     ∧ addbulk_entry "X|Widget|3" {["X" := ("Widget", 5)]}
       = (Returns (Added "X" 3 "Widget"), {["X" := ("Widget", 8)]})
     ∧ addbulk_cmd "/addbulk X|Widget|5; Y|Gadget|bad; X|Widget|3" ∅
       = (Returns (Joined [Added "X" 5 "Widget";
                           Qty_must_be_a_number "Y" "bad";
                           Added "X" 3 "Widget"]),
          {["X" := ("Widget", 8)]})).
Proof.
  intros Hparts. split; [|split].
  - split; [by apply addbulk_cmd_joined|].
    apply for_each_sequential_no_rollback.
    + intros e d line d'. apply addbulk_entry_failed.
    + intros e d x d'. apply addbulk_entry_raises.
  - split; [by apply sellbulk_cmd_joined|].
    apply for_each_sequential_no_rollback.
    + intros e d line d'. apply sellbulk_entry_failed.
    + intros e d x d'. apply sellbulk_entry_raises.
  - repeat split; vm_compute; reflexivity.
Qed.

Lemma bulk_sequential_no_rollback_witness :
  sellbulk_cmd "/sellbulk X|100; X|3; Y|1" {["X" := ("Widget", 8)]}
  = (Returns (Joined [Sell_failed "X" (Not_enough_stock 8);
                      Sold "X" 3 (New_q 5);
                      Sell_failed "Y" SKU_not_found]),
     {["X" := ("Widget", 5)]})
  ∧ sequential_no_rollback sellbulk_entry ["X|100"; "X|3"; "Y|1"]
      {["X" := ("Widget", 8)]}.
Proof.
  destruct (bulk_sequential_no_rollback "/sellbulk X|100; X|3; Y|1"
              {["X" := ("Widget", 8)]}) as (_ & [Hcmd Hseq] & _).
  - vm_compute. discriminate.
  - split; [|exact Hseq].
    rewrite Hcmd. vm_compute. reflexivity.
Defined.

(** The test of the specification for BatchSell: "X|100" against X with
    quantity 8. *)
Example sellbulk_insufficient :
  sellbulk_cmd "/sellbulk X|100" {["X" := ("Widget", 8)]}
  = (Returns (Joined [Sell_failed "X" (Not_enough_stock 8)]),
     {["X" := ("Widget", 8)]}).
Proof. vm_compute. reflexivity. Qed.

(** ** Quantities of a bulk sale *)

(** C5, as stated, fails: the quantity field "-3" is not a non-negative
    integer, yet [sellbulk_cmd] hands it to [reduce_stock], which adds 3 to
    the stock of X; the line is a success line, not "qty must be a
    number". *)
Lemma sellbulk_negative_quantity_counterexample :
  fields "X|-3" = ["X"; "-3"]
  ∧ ¬ nonneg_integer "-3"
  ∧ sellbulk_entry "X|-3" {["X" := ("Widget", 8)]}
    = (Returns (Sold "X" (-3) (New_q 11)), {["X" := ("Widget", 11)]})
  ∧ sellbulk_entry "X|-3" {["X" := ("Widget", 8)]}
    ≠ (Returns (Qty_must_be_a_number "X" "-3"), {["X" := ("Widget", 8)]})
  ∧ sellbulk_cmd "/sellbulk X|-3" {["X" := ("Widget", 8)]}
    = (Returns (Joined [Sold "X" (-3) (New_q 11)]), {["X" := ("Widget", 11)]}).
Proof.
  split; [vm_compute; reflexivity|]. split; [|split; [|split]].
  - intros (n & Hint & Hn). vm_compute in Hint.
    injection Hint as <-. lia.
  - vm_compute. reflexivity.
  - vm_compute. discriminate.
  - vm_compute. reflexivity.
Qed.

(** C5, amended.  For an entry of [sellbulk_cmd] with exactly two fields,
    the line is "qty must be a number", with the table untouched and
    [reduce_stock] not called, exactly when [int] rejects the quantity
    field; when [int] accepts it, whatever its sign, [reduce_stock sku qty]
    is called: the line and the table are those of its result, and what it
    raises leaves the handler. *)
Theorem sellbulk_entry_quantity
    (entry sku qty_str : string) (db : table) :
  fields entry = [sku; qty_str] →
  (Py.int qty_str = None →
     sellbulk_entry entry db = (Returns (Qty_must_be_a_number sku qty_str), db))
  ∧ (∀ qty, Py.int qty_str = Some qty →
       sellbulk_entry entry db
       = match reduce_stock sku qty db with
         | (Returns (ok, res), db') =>
             (Returns (if ok then Sold sku qty res else Sell_failed sku res), db')
         | (Raises x, db') => (Raises x, db')
         end)
  ∧ ((sellbulk_entry entry db).1 = Returns (Qty_must_be_a_number sku qty_str)
     ↔ Py.int qty_str = None).
Proof.
  intros Hfields. unfold sellbulk_entry. rewrite Hfields.
  destruct (Py.int qty_str) as [qty|].
  - unfold mbind, Sql_bind, mret, Sql_ret.
    destruct (reduce_stock sku qty db) as [[[ok res]|x] db'] eqn:Hred.
    + split; [done|]. split.
      * intros ? [= <-]. rewrite Hred. by destruct ok.
      * by destruct ok.
    + split; [done|]. split; [|done].
      intros ? [= <-]. by rewrite Hred.
  - split; [done|]. split; [done|]. done.
Qed.

Lemma sellbulk_entry_quantity_witness :
  sellbulk_entry "X| two" {["X" := ("Widget", 8)]}
  = (Returns (Qty_must_be_a_number "X" "two"), {["X" := ("Widget", 8)]})
  ∧ sellbulk_entry "X|-3" {["X" := ("Widget", 8)]}
    = match reduce_stock "X" (-3) {["X" := ("Widget", 8)]} with
      | (Returns (ok, res), db') =>
          (Returns (if ok then Sold "X" (-3) res else Sell_failed "X" res), db')
      | (Raises x, db') => (Raises x, db')
      end.
Proof.
  split.
  - apply (proj1 (sellbulk_entry_quantity "X| two" "X" "two"
                    {["X" := ("Widget", 8)]} eq_refl)).
    vm_compute. reflexivity.
  - apply (proj1 (proj2 (sellbulk_entry_quantity "X|-3" "X" "-3"
                           {["X" := ("Widget", 8)]} eq_refl)) (-3)).
    vm_compute. reflexivity.
Defined.

(** The quantity field of the entry is the Arabic-Indic digit three: [int]
    reads 3 and the sale goes through. *)
Example sellbulk_arabic_indic_digit :
  sellbulk_entry ("X|" +:+ String "217" (String "163" EmptyString)) {["X" := ("Widget", 8)]}
  = (Returns (Sold "X" 3 (New_q 5)), {["X" := ("Widget", 5)]}).
Proof. vm_compute. reflexivity. Qed.

(** * Further properties of the ledger *)

(** ** Rows a call does not address *)

(** X1.  A call of a helper function changes at most the row of the sku
    it is called with: the row of every other sku, present or not, is
    after the call what it was before; [list_all] changes no row at all. *)
Theorem exec_frame (c : call) (db : table) (sku : string) :
  target c ≠ Some sku → exec c db !! sku = db !! sku.
Proof.
  intros Hc. destruct c as [sku' name qty|sku'| |sku' amount|sku']; cbn [exec].
  - rewrite add_or_update_sku_eq. destruct (decide _); [|done]. simpl.
    apply lookup_insert_ne. intros ->. by apply Hc.
  - by rewrite get_stock_eq.
  - done.
  - rewrite reduce_stock_eq.
    destruct (db !! sku') as [[name q]|]; [|done].
    destruct (bool_decide (amount > q)); [done|].
    destruct (decide _); [|done]. simpl.
    apply lookup_insert_ne. intros ->. by apply Hc.
  - rewrite delete_sku_eq. simpl.
    apply lookup_delete_ne. intros ->. by apply Hc.
Qed.

Lemma exec_frame_witness :
  exec (Call_reduce "X" 3) {["X" := ("Widget", 8); "Y" := ("Gadget", 2)]} !! "Y"
  = ({["X" := ("Widget", 8); "Y" := ("Gadget", 2)]} : table) !! "Y".
Proof.
  apply (exec_frame (Call_reduce "X" 3)
           {["X" := ("Widget", 8); "Y" := ("Gadget", 2)]} "Y").
  simpl. discriminate.
Defined.

(** ** Quantities never below zero *)

(** X2.  Whenever [reduce_stock] reports success, whatever the amount,
    the sku had a row, the amount did not exceed its quantity, and the
    quantity it stores and returns is not negative. *)
Theorem reduce_stock_success (db : table) (sku : string) (amount : Z) :
  succeeded (reduce_stock sku amount db).1 →
  ∃ name q,
    db !! sku = Some (name, q) ∧ amount ≤ q ∧ 0 ≤ q - amount
    ∧ reduce_stock sku amount db
      = (Returns (true, New_q (q - amount)), <[sku := (name, q - amount)]> db).
Proof.
  rewrite reduce_stock_eq.
  destruct (db !! sku) as [[name q]|]; [|done].
  destruct (decide (amount > q)) as [Hgt|Hle].
  - by rewrite bool_decide_eq_true_2.
  - rewrite bool_decide_eq_false_2 by done.
    destruct (decide _); [|done]. intros _.
    exists name, q. repeat split; lia.
Qed.

Lemma reduce_stock_success_witness :
  ∃ name q,
    ({["X" := ("Widget", 8)]} : table) !! "X" = Some (name, q)
    ∧ -3 ≤ q ∧ 0 ≤ q - -3
    ∧ reduce_stock "X" (-3) {["X" := ("Widget", 8)]}
      = (Returns (true, New_q (q - -3)),
         <["X" := (name, q - -3)]> {["X" := ("Widget", 8)]}).
Proof.
  apply (reduce_stock_success {["X" := ("Widget", 8)]} "X" (-3)).
  vm_compute. exact I.
Defined.

Lemma exec_nonneg (c : call) (db : table) :
  adds_nonneg c → nonneg db → nonneg (exec c db).
Proof.
  unfold nonneg. intros Hc Hdb.
  destruct c as [sku name qty|sku| |sku amount|sku]; cbn [exec].
  - rewrite add_or_update_sku_eq. destruct (decide _); [|done]. simpl.
    apply map_Forall_insert_2; [|done]. simpl in *.
    unfold qty_of. destruct (db !! sku) as [[name0 q]|] eqn:Hsku; [|lia].
    specialize (Hdb sku (name0, q) Hsku). simpl in Hdb. lia.
  - by rewrite get_stock_eq.
  - done.
  - rewrite reduce_stock_eq.
    destruct (db !! sku) as [[name q]|]; [|done].
    destruct (decide (amount > q)) as [Hgt|Hle].
    + by rewrite bool_decide_eq_true_2.
    + rewrite bool_decide_eq_false_2 by done.
      destruct (decide _); [|done]. simpl.
      apply map_Forall_insert_2; [simpl; lia|done].
  - rewrite delete_sku_eq. simpl. by apply map_Forall_delete.
Qed.

(** X3.  From a table without negative quantities, no sequence of calls
    of the helper functions leads to a table with a negative quantity, as
    long as every [add_or_update_sku] of the sequence adds a non-negative
    quantity; the amounts passed to [reduce_stock] may have any sign. *)
Theorem run_nonneg (cs : list call) (db : table) :
  Forall adds_nonneg cs → nonneg db → nonneg (run cs db).
Proof.
  unfold run. revert db.
  induction cs as [|c cs IH]; intros db Hcs Hdb; simpl; [done|].
  apply Forall_cons in Hcs as [Hc Hcs].
  apply IH; [done|]. by apply exec_nonneg.
Qed.

Lemma run_nonneg_witness :
  nonneg (run [Call_add "X" "Widget" 5; Call_reduce "X" (-3);
               Call_reduce "X" 100; Call_delete "Y"] ∅).
Proof.
  apply (run_nonneg [Call_add "X" "Widget" 5; Call_reduce "X" (-3);
                     Call_reduce "X" 100; Call_delete "Y"] ∅).
  - repeat constructor; simpl; lia.
  - apply map_Forall_empty.
Defined.

(** ** How calls compose *)

(** X4.  Two calls of [add_or_update_sku] for different skus, each with a
    resulting quantity in the signed 64-bit range, commute: either order
    returns [True] twice and leaves the same table, so that the table, and
    what [list_all] returns, do not depend on the order in which different
    skus were added. *)
Theorem add_or_update_sku_comm
    (db : table) (sku1 sku2 name1 name2 : string) (qty1 qty2 : Z) :
  sku1 ≠ sku2 →
  fits (qty_of db sku1 + qty1) → fits (qty_of db sku2 + qty2) →
  (_ ← add_or_update_sku sku1 name1 qty1; add_or_update_sku sku2 name2 qty2) db
  = (_ ← add_or_update_sku sku2 name2 qty2; add_or_update_sku sku1 name1 qty1) db
  ∧ (_ ← add_or_update_sku sku1 name1 qty1;
     _ ← add_or_update_sku sku2 name2 qty2; list_all) db
    = (_ ← add_or_update_sku sku2 name2 qty2;
       _ ← add_or_update_sku sku1 name1 qty1; list_all) db
  ∧ ((_ ← add_or_update_sku sku1 name1 qty1;
      add_or_update_sku sku2 name2 qty2) db).1 = Returns true.
Proof.
  intros Hne Hfits1 Hfits2.
  assert (∀ d, qty_of (<[sku1 := d]> db) sku2 = qty_of db sku2) as Hq2.
  { intros d. unfold qty_of. by rewrite lookup_insert_ne. }
  assert (∀ d, qty_of (<[sku2 := d]> db) sku1 = qty_of db sku1) as Hq1.
  { intros d. unfold qty_of. by rewrite lookup_insert_ne. }
  assert (∀ d, name_of (<[sku1 := d]> db) sku2 = name_of db sku2) as Hn2.
  { intros d. unfold name_of. by rewrite lookup_insert_ne. }
  assert (∀ d, name_of (<[sku2 := d]> db) sku1 = name_of db sku1) as Hn1.
  { intros d. unfold name_of. by rewrite lookup_insert_ne. }
  unfold mbind, Sql_bind.
  rewrite !(add_or_update_sku_eq db), !decide_True by done.
  rewrite !add_or_update_sku_eq, Hq1, Hq2, Hn1, Hn2, !decide_True by done.
  rewrite (insert_insert_ne db sku1 sku2) by done.
  done.
Qed.

Lemma add_or_update_sku_comm_witness :
  (_ ← add_or_update_sku "B" "Beans" 2; add_or_update_sku "A" "Apple" 4) ∅
  = (_ ← add_or_update_sku "A" "Apple" 4; add_or_update_sku "B" "Beans" 2) ∅
  ∧ (_ ← add_or_update_sku "B" "Beans" 2;
     _ ← add_or_update_sku "A" "Apple" 4; list_all) ∅
    = (_ ← add_or_update_sku "A" "Apple" 4;
       _ ← add_or_update_sku "B" "Beans" 2; list_all) ∅
  ∧ ((_ ← add_or_update_sku "B" "Beans" 2;
      add_or_update_sku "A" "Apple" 4) ∅).1 = Returns true.
Proof.
  apply (add_or_update_sku_comm ∅ "B" "A" "Beans" "Apple" 2 4);
    [discriminate | vm_compute; split; discriminate
     | vm_compute; split; discriminate].
Defined.

(** X5.  Any number of calls of [add_or_update_sku] for a sku that has a
    row, with every running total of the quantity in the signed 64-bit
    range, leave its name as it was and its quantity increased by the sum
    of the quantities passed, whatever names are passed; no other row
    changes. *)
Theorem add_or_update_sku_accumulates
    (l : list (string * Z)) (db : table) (sku name : string) (q : Z) :
  db !! sku = Some (name, q) → totals_fit q (snd <$> l) →
  run ((λ nq : string * Z, Call_add sku nq.1 nq.2) <$> l) db
  = <[sku := (name, q + foldr Z.add 0 (snd <$> l))]> db.
Proof.
  unfold run. revert db q.
  induction l as [|[n d] l IH]; intros db q Hsku Hfit; simpl.
  - rewrite Z.add_0_r. by rewrite insert_id.
  - destruct Hfit as [Hd Hfit]. simpl in Hd, Hfit.
    rewrite (add_or_update_sku_present _ _ _ _ _ _ Hsku Hd). simpl.
    rewrite (IH _ (q + d)) by (apply lookup_insert_eq || done).
    rewrite insert_insert_eq. by rewrite Z.add_assoc.
Qed.

Lemma add_or_update_sku_accumulates_witness :
  run ((λ nq : string * Z, Call_add "X" nq.1 nq.2)
         <$> [("Gizmo", 3); ("Thing", -1); ("Widget", 10)])
      {["X" := ("Widget", 8)]}
  = <["X" := ("Widget", 8 + foldr Z.add 0 (snd <$> [("Gizmo", 3); ("Thing", -1); ("Widget", 10)]))]>
      {["X" := ("Widget", 8)]}.
Proof.
  apply (add_or_update_sku_accumulates
           [("Gizmo", 3); ("Thing", -1); ("Widget", 10)]
           {["X" := ("Widget", 8)]} "X" "Widget" 8).
  - reflexivity.
  - simpl. unfold fits. lia.
Defined.

(** X6.  On a sku with a non-negative quantity, adding a quantity and
    then selling the same quantity, whatever its sign and whatever name
    is passed, gives back the table as it was, provided the quantity in
    between is in the signed 64-bit range; the sale succeeds and returns
    the old quantity. *)
Theorem add_then_reduce_restores
    (db : table) (sku name name' : string) (q qty : Z) :
  db !! sku = Some (name, q) → 0 ≤ q → fits q → fits (q + qty) →
  (_ ← add_or_update_sku sku name' qty; reduce_stock sku qty) db
  = (Returns (true, New_q q), db).
Proof.
  intros Hsku Hq Hfq Hfits. unfold mbind, Sql_bind.
  rewrite (add_or_update_sku_present _ _ _ _ _ _ Hsku Hfits).
  replace q with (q + qty - qty) at 3 4 by lia.
  rewrite (reduce_stock_le _ sku name (q + qty) qty);
    [|apply lookup_insert_eq|lia|by replace (q + qty - qty) with q by lia].
  rewrite insert_insert_eq.
  replace (q + qty - qty) with q by lia.
  by rewrite insert_id.
Qed.

Lemma add_then_reduce_restores_witness :
  (_ ← add_or_update_sku "X" "Gizmo" 5; reduce_stock "X" 5)
    {["X" := ("Widget", 8)]}
  = (Returns (true, New_q 8), {["X" := ("Widget", 8)]}).
Proof.
  apply (add_then_reduce_restores {["X" := ("Widget", 8)]} "X" "Widget" "Gizmo" 8 5);
    [reflexivity | lia | unfold fits; lia | unfold fits; lia].
Defined.

(** X7.  Selling the whole quantity of a sku does not remove its row:
    the row stays with quantity 0, [stock_cmd] still shows it, and a
    second sale of a positive amount is refused with "have 0". *)
Theorem sold_out_row_remains (db : table) (sku name : string) (q amount : Z) :
  db !! sku = Some (name, q) → 0 < amount →
  (_ ← reduce_stock sku q; stock_cmd [sku]) db
  = (Returns (Stock_of (sku, name, 0)), <[sku := (name, 0)]> db)
  ∧ (_ ← reduce_stock sku q; reduce_stock sku amount) db
    = (Returns (false, Not_enough_stock 0), <[sku := (name, 0)]> db).
Proof.
  intros Hsku Hamount. unfold mbind, Sql_bind.
  rewrite (reduce_stock_le _ _ _ _ _ Hsku)
    by (rewrite ?Z.sub_diag; unfold fits; lia).
  rewrite Z.sub_diag. split.
  - unfold stock_cmd, mbind, Sql_bind, mret, Sql_ret.
    rewrite get_stock_eq. by rewrite lookup_insert_eq.
  - apply (reduce_stock_gt _ sku name); [apply lookup_insert_eq|lia].
Qed.

Lemma sold_out_row_remains_witness :
  (_ ← reduce_stock "X" 8; stock_cmd ["X"]) {["X" := ("Widget", 8)]}
  = (Returns (Stock_of ("X", "Widget", 0)),
     <["X" := ("Widget", 0)]> {["X" := ("Widget", 8)]})
  ∧ (_ ← reduce_stock "X" 8; reduce_stock "X" 1) {["X" := ("Widget", 8)]}
    = (Returns (false, Not_enough_stock 0),
       <["X" := ("Widget", 0)]> {["X" := ("Widget", 8)]}).
Proof.
  apply (sold_out_row_remains {["X" := ("Widget", 8)]} "X" "Widget" 8 1);
    [reflexivity | lia].
Defined.

(** X8.  After [delete_sku], an [add_or_update_sku] for the same sku with
    a quantity in the signed 64-bit range creates the row anew: it takes
    the name and the quantity of this call, and nothing of the deleted row
    survives. *)
Theorem delete_then_add_creates
    (db : table) (sku name : string) (qty : Z) :
  fits qty →
  (_ ← delete_sku sku; add_or_update_sku sku name qty) db
  = (Returns true, <[sku := (name, qty)]> db).
Proof.
  intros Hfits. unfold mbind, Sql_bind. rewrite delete_sku_eq.
  rewrite add_or_update_sku_absent by (apply lookup_delete_eq || done).
  by rewrite insert_delete_eq.
Qed.

Lemma delete_then_add_creates_witness :
  (_ ← delete_sku "X"; add_or_update_sku "X" "Gizmo" 2) {["X" := ("Widget", 8)]}
  = (Returns true, <["X" := ("Gizmo", 2)]> {["X" := ("Widget", 8)]}).
Proof.
  apply (delete_then_add_creates {["X" := ("Widget", 8)]} "X" "Gizmo" 2).
  unfold fits. lia.
Defined.

(** X9.  [delete_sku] twice in a row: the second call finds nothing,
    returns [False] and changes nothing. *)
Theorem delete_sku_twice (db : table) (sku : string) :
  (_ ← delete_sku sku; delete_sku sku) db = (Returns false, delete sku db).
Proof.
  unfold mbind, Sql_bind. rewrite delete_sku_eq.
  apply delete_sku_absent, lookup_delete_eq.
Qed.

(** X10.  Two sales in a row that the stock covers amount to one sale of
    the sum: same table, same quantity returned. *)
Theorem reduce_stock_twice
    (db : table) (sku name : string) (q a b : Z) :
  db !! sku = Some (name, q) → fits q → 0 ≤ a → 0 ≤ b → a + b ≤ q →
  (_ ← reduce_stock sku a; reduce_stock sku b) db
  = reduce_stock sku (a + b) db.
Proof.
  intros Hsku Hq Ha Hb Hab. unfold mbind, Sql_bind.
  rewrite (reduce_stock_le _ _ _ _ a Hsku) by (unfold fits in *; lia).
  rewrite (reduce_stock_le _ sku name (q - a) b)
    by (apply lookup_insert_eq || unfold fits in *; lia).
  rewrite (reduce_stock_le _ _ _ _ (a + b) Hsku) by (unfold fits in *; lia).
  rewrite insert_insert_eq.
  by replace (q - a - b) with (q - (a + b)) by lia.
Qed.

Lemma reduce_stock_twice_witness :
  (_ ← reduce_stock "X" 2; reduce_stock "X" 3) {["X" := ("Widget", 8)]}
  = reduce_stock "X" (2 + 3) {["X" := ("Widget", 8)]}.
Proof.
  apply (reduce_stock_twice {["X" := ("Widget", 8)]} "X" "Widget" 8 2 3);
    [reflexivity | unfold fits; lia | lia | lia | lia].
Defined.

(** X24.  Creating a row and deleting it again gives back the table as
    it was: for a sku without a row and a quantity in the signed 64-bit
    range, [add_or_update_sku] followed by [delete_sku] returns [True] and
    leaves the table unchanged. *)
Theorem add_then_delete_restores
    (db : table) (sku name : string) (qty : Z) :
  db !! sku = None → fits qty →
  (_ ← add_or_update_sku sku name qty; delete_sku sku) db = (Returns true, db).
Proof.
  intros Hsku Hfits. unfold mbind, Sql_bind.
  rewrite (add_or_update_sku_absent _ _ _ _ Hsku Hfits).
  rewrite delete_sku_present by (rewrite lookup_insert_eq; eauto).
  rewrite delete_insert_eq. by rewrite delete_id.
Qed.

Lemma add_then_delete_restores_witness :
  (_ ← add_or_update_sku "Y" "Gadget" 2; delete_sku "Y") {["X" := ("Widget", 8)]}
  = (Returns true, {["X" := ("Widget", 8)]}).
Proof.
  apply (add_then_delete_restores {["X" := ("Widget", 8)]} "Y" "Gadget" 2);
    [reflexivity | unfold fits; lia].
Defined.

(** * Further properties of the single-item handlers *)

Lemma merge_sort_rows_nil (db : table) :
  merge_sort row_le (rows db) = [] ↔ db = ∅.
Proof.
  rewrite <- map_size_empty_iff, <- length_zero_iff_nil.
  rewrite (Permutation_length (merge_sort_Permutation row_le (rows db))).
  unfold rows. by rewrite length_fmap, length_map_to_list.
Qed.

(** X11.  [list_cmd] answers "No items in stock." exactly when the table
    has no row; otherwise it lists every row, in the order of [list_all];
    it never changes the table. *)
Theorem list_cmd_reply (db : table) :
  ∃ rows0,
    list_all db = (Returns rows0, db)
    ∧ list_cmd db
      = (Returns (if decide (db = ∅) then No_items_in_stock
                  else Current_stock rows0), db).
Proof.
  exists (merge_sort row_le (rows db)). split; [done|].
  unfold list_cmd, mbind, Sql_bind, mret, Sql_ret, list_all, SQL.select_all.
  pose proof (merge_sort_rows_nil db) as Hnil.
  destruct (decide (db = ∅)) as [Hempty|Hrows].
  - by rewrite (proj2 Hnil Hempty).
  - destruct (merge_sort row_le (rows db)) as [|r rows0]; [|done].
    by destruct Hrows; apply Hnil.
Qed.

(** X12.  After [delete_cmd] for a sku, whether the sku had a row or not,
    [stock_cmd] for that sku answers "SKU not found." *)
Theorem delete_cmd_then_stock_cmd (db : table) (sku : string) :
  (_ ← delete_cmd [sku]; stock_cmd [sku]) db
  = (Returns SKU_not_found_reply, delete sku db).
Proof.
  unfold delete_cmd, stock_cmd, mbind, Sql_bind, mret, Sql_ret.
  rewrite delete_sku_eq.
  assert (get_stock sku (delete sku db) = (Returns None, delete sku db)) as Hget.
  { rewrite get_stock_eq. by rewrite lookup_delete_eq. }
  destruct (bool_decide (is_Some (db !! sku))); cbn [negb]; by rewrite Hget.
Qed.

(** X13.  A single-item handler changes the table only when its reply
    says so: unless [addsku] answers "updated", [sell_cmd] answers "Sold"
    and [delete_cmd] answers "deleted", the table is left as it was (wrong
    number of arguments, quantity that is not a number, unknown sku, not
    enough stock, or an exception instead of a reply); [stock_cmd] and
    [list_cmd] never change it. *)
Theorem handlers_change_only_on_success (args : list string) (db : table) :
  (¬ replied_change (addsku args db).1 → (addsku args db).2 = db)
  ∧ (stock_cmd args db).2 = db
  ∧ (¬ replied_change (sell_cmd args db).1 → (sell_cmd args db).2 = db)
  ∧ (list_cmd db).2 = db
  ∧ (¬ replied_change (delete_cmd args db).1 → (delete_cmd args db).2 = db).
Proof.
  split; [|split; [|split; [|split]]].
  - unfold addsku. destruct (decide (length args < 3)%nat); [done|].
    destruct args as [|sku args']; [done|].
    destruct (last (sku :: args')) as [qty_str|]; [|done].
    destruct (Py.int qty_str) as [qty|]; [|done].
    unfold mbind, Sql_bind, mret, Sql_ret. rewrite add_or_update_sku_eq.
    destruct (decide _); [|done]. simpl.
    intros Hno. by destruct Hno.
  - unfold stock_cmd. destruct args as [|sku [|? ?]]; try done.
    unfold mbind, Sql_bind, mret, Sql_ret. rewrite get_stock_eq.
    by destruct (db !! sku) as [[name q]|].
  - unfold sell_cmd. destruct args as [|sku [|qty_str [|? ?]]]; try done.
    destruct (Py.int qty_str) as [qty|]; [|done].
    unfold mbind, Sql_bind, mret, Sql_ret. rewrite reduce_stock_eq.
    destruct (db !! sku) as [[name q]|]; [|done].
    destruct (bool_decide (qty > q)); [done|].
    destruct (decide _); [|done]. simpl.
    intros Hno. by destruct Hno.
  - unfold list_cmd, mbind, Sql_bind, mret, Sql_ret, list_all, SQL.select_all.
    by destruct (merge_sort row_le (rows db)).
  - unfold delete_cmd. destruct args as [|sku [|? ?]]; try done.
    unfold mbind, Sql_bind, mret, Sql_ret. rewrite delete_sku_eq.
    destruct (db !! sku) as [v|] eqn:Hsku.
    + rewrite bool_decide_eq_true_2 by eauto. simpl.
      intros Hno. by destruct Hno.
    + rewrite bool_decide_eq_false_2 by (by intros [? ?]). simpl.
      intros _. by apply delete_id.
Qed.

Lemma handlers_change_only_on_success_witness :
  (addsku ["X"; "Blue"; "Saree"; "ten"] {["X" := ("Widget", 8)]}).2
  = {["X" := ("Widget", 8)]}
  ∧ (sell_cmd ["X"; "100"] {["X" := ("Widget", 8)]}).2 = {["X" := ("Widget", 8)]}
  ∧ (delete_cmd ["Y"] {["X" := ("Widget", 8)]}).2 = {["X" := ("Widget", 8)]}.
Proof.
  split; [|split].
  - apply (proj1 (handlers_change_only_on_success
                    ["X"; "Blue"; "Saree"; "ten"] {["X" := ("Widget", 8)]})).
    vm_compute. intros H. exact H.
  - apply (proj1 (proj2 (proj2 (handlers_change_only_on_success
                    ["X"; "100"] {["X" := ("Widget", 8)]})))).
    vm_compute. intros H. exact H.
  - apply (proj2 (proj2 (proj2 (proj2 (handlers_change_only_on_success
                    ["Y"] {["X" := ("Widget", 8)]}))))).
    vm_compute. intros H. exact H.
Defined.

Lemma addsku_args (sku qty_str : string) (words : list string) :
  words ≠ [] →
  ¬ (length (sku :: words ++ [qty_str]) < 3)%nat
  ∧ last (sku :: words ++ [qty_str]) = Some qty_str
  ∧ list_slice 1 (length (sku :: words ++ [qty_str]) - 1)
      (sku :: words ++ [qty_str]) = words.
Proof.
  intros Hwords. split; [|split].
  - destruct words; [done|]. simpl. rewrite length_app. simpl. lia.
  - by rewrite app_comm_cons, last_snoc.
  - unfold list_slice. simpl. rewrite drop_0, length_app. simpl.
    replace (length words + 1 - 0 - 1)%nat with (length words) by lia.
    by rewrite take_app_length.
Qed.

(** X14.  [addsku] takes the first argument as the sku, the last as the
    quantity and everything between as the name, joined by single spaces:
    with at least one word of name, it answers "Quantity must be a number."
    and changes nothing when [int] rejects the last argument, and otherwise
    calls [add_or_update_sku] with that sku, name and quantity, answers
    "updated" when the call returns and sends no reply when it raises. *)
Theorem addsku_parses
    (db : table) (sku qty_str : string) (words : list string) :
  words ≠ [] →
  addsku (sku :: words ++ [qty_str]) db
  = match Py.int qty_str with
    | None => (Returns Quantity_must_be_a_number, db)
    | Some qty =>
        match add_or_update_sku sku (str_join " " words) qty db with
        | (Returns _, db') => (Returns (Updated sku (str_join " " words) qty), db')
        | (Raises x, db') => (Raises x, db')
        end
    end.
Proof.
  intros Hwords.
  destruct (addsku_args sku qty_str words Hwords) as (Hlen & Hlast & Hslice).
  unfold addsku. rewrite Hlast, Hslice.
  destruct (decide _) as [Hlt|_]; [by destruct Hlen|].
  destruct (Py.int qty_str) as [qty|]; [|done].
  unfold mbind, Sql_bind, mret, Sql_ret.
  by destruct (add_or_update_sku _ _ _ db) as [[ok|x] db'].
Qed.

Lemma addsku_parses_witness :
  addsku ("ABC123" :: ["Blue"; "Saree"] ++ ["10"]) ∅
  = match Py.int "10" with
    | None => (Returns Quantity_must_be_a_number, ∅)
    | Some qty =>
        match add_or_update_sku "ABC123" (str_join " " ["Blue"; "Saree"]) qty ∅ with
        | (Returns _, db') =>
            (Returns (Updated "ABC123" (str_join " " ["Blue"; "Saree"]) qty), db')
        | (Raises x, db') => (Raises x, db')
        end
    end.
Proof.
  apply (addsku_parses ∅ "ABC123" "10" ["Blue"; "Saree"]). discriminate.
Defined.

(** The last argument is the Arabic-Indic digit three: [addsku] adds 3.
    The last argument is 2^63: the INSERT raises and no reply is sent. *)
Example addsku_examples :
  addsku ["X"; "Widget"; String "217" (String "163" EmptyString)] ∅
  = (Returns (Updated "X" "Widget" 3), {["X" := ("Widget", 3)]})
  ∧ addsku ["X"; "Widget"; "9223372036854775808"] ∅ = (Raises OverflowError, ∅).
Proof. split; vm_compute; reflexivity. Qed.

(** X15.  [addsku] for a sku without a row, with a quantity in the signed
    64-bit range, followed by [stock_cmd] for that sku: the reply shows
    the sku, the name made of the middle arguments and the quantity of the
    last argument. *)
Theorem addsku_then_stock_cmd
    (db : table) (sku qty_str : string) (words : list string) (qty : Z) :
  db !! sku = None → words ≠ [] → Py.int qty_str = Some qty → fits qty →
  (_ ← addsku (sku :: words ++ [qty_str]); stock_cmd [sku]) db
  = (Returns (Stock_of (sku, str_join " " words, qty)),
     <[sku := (str_join " " words, qty)]> db).
Proof.
  intros Hsku Hwords Hint Hfits.
  destruct (addsku_args sku qty_str words Hwords) as (Hlen & Hlast & Hslice).
  unfold mbind at 1, Sql_bind at 1.
  unfold addsku. rewrite Hlast, Hslice, Hint.
  destruct (decide _) as [Hlt|_]; [by destruct Hlen|].
  unfold mbind at 1, Sql_bind at 1, mret, Sql_ret.
  rewrite (add_or_update_sku_absent _ _ _ _ Hsku Hfits).
  unfold stock_cmd, mbind, Sql_bind, mret, Sql_ret.
  rewrite get_stock_eq. by rewrite lookup_insert_eq.
Qed.

Lemma addsku_then_stock_cmd_witness :
  (_ ← addsku ("ABC123" :: ["Blue"; "Saree"] ++ ["10"]); stock_cmd ["ABC123"]) ∅
  = (Returns (Stock_of ("ABC123", str_join " " ["Blue"; "Saree"], 10)),
     <["ABC123" := (str_join " " ["Blue"; "Saree"], 10)]> ∅).
Proof.
  apply (addsku_then_stock_cmd ∅ "ABC123" "10" ["Blue"; "Saree"] 10);
    [reflexivity | discriminate | vm_compute; reflexivity | unfold fits; lia].
Defined.

(** * Further properties of the bulk handlers *)

(** ** Fields and entries *)

Lemma fields_three (a b c : string) :
  without "|" a → without "|" b → without "|" c →
  fields (a +:+ "|" +:+ b +:+ "|" +:+ c) = [Py.strip a; Py.strip b; Py.strip c].
Proof.
  intros Ha Hb Hc. unfold fields.
  change ("|" +:+ b +:+ "|" +:+ c) with (String "|" (b +:+ String "|" c)).
  by rewrite (split_app _ _ _ Ha), (split_app _ _ _ Hb), (split_without _ _ Hc).
Qed.

Lemma fields_two (a b : string) :
  without "|" a → without "|" b →
  fields (a +:+ "|" +:+ b) = [Py.strip a; Py.strip b].
Proof.
  intros Ha Hb. unfold fields.
  change ("|" +:+ b) with (String "|" b).
  by rewrite (split_app _ _ _ Ha), (split_without _ _ Hb).
Qed.

(** X16.  An entry of [addbulk_cmd] made of three fields without [|],
    joined by [|], is read back as those three fields, trimmed: when [int]
    accepts the trimmed third, [add_or_update_sku] is called with the
    trimmed sku and name and that quantity, and the line reports the
    addition unless the call raises; when it does not, the line says so
    and the table is unchanged. *)
Theorem addbulk_entry_wellformed
    (db : table) (sku name qty_str : string) :
  without "|" sku → without "|" name → without "|" qty_str →
  addbulk_entry (sku +:+ "|" +:+ name +:+ "|" +:+ qty_str) db
  = match Py.int (Py.strip qty_str) with
    | None =>
        (Returns (Qty_must_be_a_number (Py.strip sku) (Py.strip qty_str)), db)
    | Some qty =>
        match add_or_update_sku (Py.strip sku) (Py.strip name) qty db with
        | (Returns _, db') =>
            (Returns (Added (Py.strip sku) qty (Py.strip name)), db')
        | (Raises x, db') => (Raises x, db')
        end
    end.
Proof.
  intros Hsku Hname Hqty. unfold addbulk_entry.
  rewrite (fields_three _ _ _ Hsku Hname Hqty).
  destruct (Py.int (Py.strip qty_str)) as [qty|]; [|done].
  unfold mbind, Sql_bind, mret, Sql_ret.
  by destruct (add_or_update_sku _ _ _ db) as [[ok|x] db'].
Qed.

Lemma addbulk_entry_wellformed_witness :
  addbulk_entry (" ABC123 " +:+ "|" +:+ "Blue Saree" +:+ "|"
                 +:+ String "194" (String "160" "10")) ∅
  = match Py.int (Py.strip (String "194" (String "160" "10"))) with
    | None =>
        (Returns (Qty_must_be_a_number (Py.strip " ABC123 ")
                    (Py.strip (String "194" (String "160" "10")))), ∅)
    | Some qty =>
        match add_or_update_sku (Py.strip " ABC123 ") (Py.strip "Blue Saree") qty ∅ with
        | (Returns _, db') =>
            (Returns (Added (Py.strip " ABC123 ") qty (Py.strip "Blue Saree")), db')
        | (Raises x, db') => (Raises x, db')
        end
    end.
Proof.
  apply (addbulk_entry_wellformed ∅ " ABC123 " "Blue Saree"
           (String "194" (String "160" "10")));
    unfold without; simpl; repeat constructor; discriminate.
Defined.

(** The quantity field is U+00A0 followed by 10: the code trims the
    no-break space and adds 10. *)
Example addbulk_entry_no_break_space :
  addbulk_entry ("X|Widget|" +:+ String "194" (String "160" "10")) ∅
  = (Returns (Added "X" 10 "Widget"), {["X" := ("Widget", 10)]}).
Proof. vm_compute. reflexivity. Qed.

(** X17.  An entry with a number of [|] other than two is answered by
    [addbulk_cmd] with "Invalid format" and the entry itself, and one with
    a number of [|] other than one likewise by [sellbulk_cmd]; the table is
    unchanged.  So a name that contains a [|] makes its entry invalid. *)
Theorem bulk_entry_wrong_arity (entry : string) (db : table) :
  (occurrences "|" entry ≠ 2%nat →
     addbulk_entry entry db = (Returns (Invalid_format entry), db))
  ∧ (occurrences "|" entry ≠ 1%nat →
     sellbulk_entry entry db = (Returns (Invalid_format entry), db)).
Proof.
  pose proof (length_split "|" entry) as Hlen.
  assert (length (fields entry) = S (occurrences "|" entry)) as Hfields.
  { unfold fields. by rewrite length_fmap. }
  split; intros Hocc.
  - unfold addbulk_entry.
    destruct (fields entry) as [|f1 [|f2 [|f3 [|f4 fs]]]]; try done.
    simpl in Hfields. lia.
  - unfold sellbulk_entry.
    destruct (fields entry) as [|f1 [|f2 [|f3 fs]]]; try done.
    simpl in Hfields. lia.
Qed.

Lemma bulk_entry_wrong_arity_witness :
  addbulk_entry "X|Blue|Saree|10" ∅ = (Returns (Invalid_format "X|Blue|Saree|10"), ∅)
  ∧ sellbulk_entry "X" ∅ = (Returns (Invalid_format "X"), ∅).
Proof.
  split.
  - apply (proj1 (bulk_entry_wrong_arity "X|Blue|Saree|10" ∅)).
    simpl. lia.
  - apply (proj2 (bulk_entry_wrong_arity "X" ∅)). simpl. lia.
Defined.

(** X18.  Every entry the bulk handlers loop over is non-empty, has no
    white space at either end and contains no [;]; and there are at most
    as many entries as [;] in the text plus one. *)
Theorem entries_trimmed (text : string) :
  Forall (λ e, e ≠ EmptyString ∧ Py.strip e = e ∧ without ";" e) (entries text)
  ∧ (length (entries text) ≤ S (occurrences ";" text))%nat.
Proof.
  unfold entries. split.
  - apply Forall_fmap, Forall_forall. intros p Hp. simpl.
    apply list_elem_of_filter in Hp as [Hne Hin].
    split; [done|]. split; [apply strip_idemp|].
    apply strip_bytes.
    by apply (proj1 (Forall_forall _ _) (split_segments_without ";" text)).
  - rewrite length_fmap, <- length_split. apply length_filter.
Qed.

(** ** One entry in a bulk command *)

Lemma partition_tail_app (cmd payload : string) :
  without " " cmd → Py.partition_tail " " (cmd +:+ " " +:+ payload) = payload.
Proof.
  unfold without. induction cmd as [|c r IH]; intros Hcmd; [done|].
  apply Forall_cons in Hcmd as [Hc Hr].
  rewrite app_String. simpl.
  destruct (Ascii.eqb_spec c " ") as [->|_]; [done|]. by apply IH.
Qed.

Lemma chars_app (a b : string) : chars (a +:+ b) = chars a ++ chars b.
Proof.
  induction a as [|c a IH]; [done|].
  rewrite app_String. simpl. by rewrite IH.
Qed.

(** Where the second text begins with a whole character, the characters
    of a concatenation are those of its two parts. *)
Lemma utf8_chars_app (a b : string) :
  Py.starts_cont b = false →
  Py.utf8_chars (a +:+ b) = Py.utf8_chars a ++ Py.utf8_chars b.
Proof.
  intros Hb. induction a as [|c r IH]; [done|].
  rewrite app_String, !utf8_chars_String, IH.
  destruct r as [|c' r'].
  - rewrite app_empty, Hb. simpl. by destruct (Py.utf8_chars b).
  - destruct (utf8_chars_head c' r') as (t' & ts & -> & _ & _).
    rewrite app_String. simpl. by destruct (Py.is_cont c').
Qed.

Lemma bar_joined (a b : string) :
  Py.starts_cont a = false → spaceless a → without ";" a →
  Py.starts_cont b = false → spaceless b → without ";" b →
  Py.starts_cont (a +:+ "|" +:+ b) = false
  ∧ spaceless (a +:+ "|" +:+ b) ∧ without ";" (a +:+ "|" +:+ b)
  ∧ a +:+ "|" +:+ b ≠ EmptyString.
Proof.
  intros Ha0 Ha Ha' Hb0 Hb Hb'.
  change ("|" +:+ b) with (String "|" b).
  assert (Py.utf8_chars (String "|" b) = "|" :: Py.utf8_chars b) as Hbar.
  { change (String "|" b) with ("|" +:+ b). by rewrite utf8_chars_app. }
  split; [|split; [|split]].
  - by destruct a.
  - unfold spaceless. rewrite utf8_chars_app, Hbar by done.
    apply Forall_app. split; [done|]. by constructor.
  - unfold without. rewrite chars_app. simpl.
    apply Forall_app. split; [done|]. by constructor.
  - intros Heq. apply (f_equal chars) in Heq.
    rewrite chars_app in Heq. simpl in Heq.
    by destruct (chars a).
Qed.

(** A text without white space and without [;], and not empty, is one
    entry. *)
Lemma entries_single (text : string) :
  spaceless text → without ";" text → text ≠ EmptyString →
  Py.strip text = text ∧ entries text = [text].
Proof.
  intros Hsp Hsemi Hne.
  pose proof (strip_spaceless text Hsp) as Hstrip.
  split; [done|]. unfold entries.
  rewrite (split_without _ _ Hsemi), filter_cons, filter_nil.
  rewrite Hstrip. destruct (decide (text ≠ EmptyString)); [|done].
  simpl. by rewrite Hstrip.
Qed.

Lemma for_each_one {A B : Type} (body : A → Sql B) (x : A) (db : table) :
  for_each body [x] db
  = match body x db with
    | (Returns line, db') => (Returns [line], db')
    | (Raises e, db') => (Raises e, db')
    end.
Proof.
  rewrite for_each_cons. simpl. unfold mret, Sql_ret.
  by destruct (body x db) as [[line|e] db'].
Qed.

(** X19.  A [sellbulk_cmd] message with one entry [sku|qty], both fields
    free of white space, [;] and [|], does to the table what [sell_cmd]
    does with the arguments [sku] and [qty], and its one line reports the
    same outcome: not a number, the failure of [reduce_stock], or the
    sale; and when [reduce_stock] raises, neither handler replies. *)
Theorem sellbulk_single_entry
    (db : table) (cmd sku qty_str : string) :
  without " " cmd → plain sku → plain qty_str →
  sellbulk_cmd (cmd +:+ " " +:+ sku +:+ "|" +:+ qty_str) db
  = match Py.int qty_str with
    | None => (Returns (Joined [Qty_must_be_a_number sku qty_str]), db)
    | Some qty =>
        match reduce_stock sku qty db with
        | (Returns (ok, res), db') =>
            (Returns (Joined [if ok then Sold sku qty res
                              else Sell_failed sku res]), db')
        | (Raises x, db') => (Raises x, db')
        end
    end
  ∧ sell_cmd [sku; qty_str] db
    = match Py.int qty_str with
      | None => (Returns Quantity_must_be_a_number, db)
      | Some qty =>
          match reduce_stock sku qty db with
          | (Returns (ok, res), db') =>
              (Returns (if ok then Sold_reply qty sku res else Sell_error res), db')
          | (Raises x, db') => (Raises x, db')
          end
      end
  ∧ (sellbulk_cmd (cmd +:+ " " +:+ sku +:+ "|" +:+ qty_str) db).2
    = (sell_cmd [sku; qty_str] db).2.
Proof.
  intros Hcmd (Hsku0 & Hsku & Hsku' & Hsku'') (Hqty0 & Hqty & Hqty' & Hqty'').
  destruct (bar_joined sku qty_str Hsku0 Hsku Hsku' Hqty0 Hqty Hqty')
    as (_ & Hsp & Hsemi & Hne).
  destruct (entries_single _ Hsp Hsemi Hne) as [Hstrip Hentries].
  assert (sellbulk_cmd (cmd +:+ " " +:+ sku +:+ "|" +:+ qty_str) db
          = match Py.int qty_str with
            | None => (Returns (Joined [Qty_must_be_a_number sku qty_str]), db)
            | Some qty =>
                match reduce_stock sku qty db with
                | (Returns (ok, res), db') =>
                    (Returns (Joined [if ok then Sold sku qty res
                                      else Sell_failed sku res]), db')
                | (Raises x, db') => (Raises x, db')
                end
            end) as Hbulk.
  { rewrite sellbulk_cmd_joined;
      rewrite (partition_tail_app _ _ Hcmd), Hstrip, Hentries; [|done].
    rewrite for_each_one. unfold sellbulk_entry.
    rewrite (fields_two _ _ Hsku'' Hqty'').
    rewrite !strip_spaceless by done.
    destruct (Py.int qty_str) as [qty|]; [|done].
    unfold mbind, Sql_bind, mret, Sql_ret.
    destruct (reduce_stock sku qty db) as [[[ok res]|x] db']; [|done].
    by destruct ok. }
  assert (sell_cmd [sku; qty_str] db
          = match Py.int qty_str with
            | None => (Returns Quantity_must_be_a_number, db)
            | Some qty =>
                match reduce_stock sku qty db with
                | (Returns (ok, res), db') =>
                    (Returns (if ok then Sold_reply qty sku res
                              else Sell_error res), db')
                | (Raises x, db') => (Raises x, db')
                end
            end) as Hsell.
  { unfold sell_cmd.
    destruct (Py.int qty_str) as [qty|]; [|done].
    unfold mbind, Sql_bind, mret, Sql_ret.
    destruct (reduce_stock sku qty db) as [[[ok res]|x] db']; [|done].
    by destruct ok. }
  split; [exact Hbulk|]. split; [exact Hsell|].
  rewrite Hbulk, Hsell.
  destruct (Py.int qty_str) as [qty|]; [|done].
  by destruct (reduce_stock sku qty db) as [[[ok res]|x] db'].
Qed.

Lemma sellbulk_single_entry_witness :
  (sellbulk_cmd ("/sellbulk" +:+ " " +:+ "X" +:+ "|" +:+ "3") {["X" := ("Widget", 8)]}).2
  = (sell_cmd ["X"; "3"] {["X" := ("Widget", 8)]}).2.
Proof.
  apply (proj2 (proj2 (sellbulk_single_entry {["X" := ("Widget", 8)]}
                         "/sellbulk" "X" "3"
                         ltac:(unfold without; simpl; repeat constructor; discriminate)
                         ltac:(apply (bool_decide_unpack _); vm_compute; exact I)
                         ltac:(apply (bool_decide_unpack _); vm_compute; exact I)))).
Defined.

(** X20.  An [addbulk_cmd] message with one entry [sku|name|qty], the
    three fields free of white space, [;] and [|], does to the table what
    [addsku] does with the arguments [sku], [name] and [qty]: nothing when
    the quantity is not a number, and otherwise one call of
    [add_or_update_sku] with these values, after which both reply unless
    the call raised. *)
Theorem addbulk_single_entry
    (db : table) (cmd sku name qty_str : string) :
  without " " cmd → plain sku → plain name → plain qty_str →
  addbulk_cmd (cmd +:+ " " +:+ sku +:+ "|" +:+ name +:+ "|" +:+ qty_str) db
  = match Py.int qty_str with
    | None => (Returns (Joined [Qty_must_be_a_number sku qty_str]), db)
    | Some qty =>
        match add_or_update_sku sku name qty db with
        | (Returns _, db') => (Returns (Joined [Added sku qty name]), db')
        | (Raises x, db') => (Raises x, db')
        end
    end
  ∧ addsku [sku; name; qty_str] db
    = match Py.int qty_str with
      | None => (Returns Quantity_must_be_a_number, db)
      | Some qty =>
          match add_or_update_sku sku name qty db with
          | (Returns _, db') => (Returns (Updated sku name qty), db')
          | (Raises x, db') => (Raises x, db')
          end
      end.
Proof.
  intros Hcmd (Hsku0 & Hsku & Hsku' & Hsku'') (Hname0 & Hname & Hname' & Hname'')
    (Hqty0 & Hqty & Hqty' & Hqty'').
  destruct (bar_joined name qty_str Hname0 Hname Hname' Hqty0 Hqty Hqty')
    as (Hrest0 & Hsp0 & Hsemi0 & _).
  destruct (bar_joined sku (name +:+ "|" +:+ qty_str)
              Hsku0 Hsku Hsku' Hrest0 Hsp0 Hsemi0)
    as (_ & Hsp & Hsemi & Hne).
  destruct (entries_single _ Hsp Hsemi Hne) as [Hstrip Hentries].
  split.
  - rewrite addbulk_cmd_joined;
      rewrite (partition_tail_app _ _ Hcmd), Hstrip, Hentries; [|done].
    rewrite for_each_one. unfold addbulk_entry.
    rewrite (fields_three _ _ _ Hsku'' Hname'' Hqty'').
    rewrite !strip_spaceless by done.
    destruct (Py.int qty_str) as [qty|]; [|done].
    unfold mbind, Sql_bind, mret, Sql_ret.
    by destruct (add_or_update_sku sku name qty db) as [[ok|x] db'].
  - unfold addsku. simpl.
    destruct (Py.int qty_str) as [qty|]; [|done].
    unfold mbind, Sql_bind, mret, Sql_ret.
    by destruct (add_or_update_sku sku name qty db) as [[ok|x] db'].
Qed.

Lemma addbulk_single_entry_witness :
  addbulk_cmd ("/addbulk" +:+ " " +:+ "X" +:+ "|" +:+ "Widget" +:+ "|" +:+ "5") ∅
  = (Returns (Joined [Added "X" 5 "Widget"]), {["X" := ("Widget", 5)]})
  ∧ addsku ["X"; "Widget"; "5"] ∅
    = (Returns (Updated "X" "Widget" 5), {["X" := ("Widget", 5)]}).
Proof.
  exact (addbulk_single_entry ∅ "/addbulk" "X" "Widget" "5"
           ltac:(unfold without; simpl; repeat constructor; discriminate)
           ltac:(apply (bool_decide_unpack _); vm_compute; exact I)
           ltac:(apply (bool_decide_unpack _); vm_compute; exact I)
           ltac:(apply (bool_decide_unpack _); vm_compute; exact I)).
Defined.

(** ** What a bulk reply accounts for *)

Section for_each_invariants.
Context {A B : Type} (body : A → Sql B).

(** What every run of the body keeps, the loop keeps, whether it returns
    or raises. *)
Lemma for_each_invariant (I : table → Prop) (xs : list A) (db : table) :
  (∀ x d, I d → I (body x d).2) → I db → I (for_each body xs db).2.
Proof.
  intros Hbody. revert db.
  induction xs as [|x xs IH]; intros db Hdb; [done|].
  rewrite for_each_cons.
  specialize (Hbody x db Hdb).
  destruct (body x db) as [[line|e] db0]; [|done].
  specialize (IH db0 Hbody).
  by destruct (for_each body xs db0) as [[lines|e] db1].
Qed.

(** When each line tells by how much its run of the body moved [g], the
    lines of a loop that returns tell by how much the loop did. *)
Lemma for_each_measure (f : B → Z) (g : table → Z)
    (xs : list A) (db db' : table) (lines : list B) :
  (∀ x d line d', body x d = (Returns line, d') → g d' = g d + f line) →
  for_each body xs db = (Returns lines, db') →
  g db' = g db + foldr (λ line acc, f line + acc) 0 lines.
Proof.
  intros Hbody. revert db lines.
  induction xs as [|x xs IH]; intros db lines.
  - simpl. unfold mret, Sql_ret. intros [= <- <-]. simpl. lia.
  - rewrite for_each_cons.
    destruct (body x db) as [[line|e] db0] eqn:Hx; [|done].
    specialize (IH db0).
    destruct (for_each body xs db0) as [[lines0|e] db1]; [|done].
    intros [= <- <-]. simpl.
    rewrite (IH lines0 eq_refl), (Hbody x db line db0 Hx). lia.
Qed.

(** A loop whose body never raises in a table that satisfies [I], and
    keeps [I], returns. *)
Lemma for_each_returns (I : table → Prop) (P : A → Prop)
    (xs : list A) (db : table) :
  (∀ x d, P x → I d → ∃ line d', body x d = (Returns line, d') ∧ I d') →
  Forall P xs → I db →
  ∃ lines db', for_each body xs db = (Returns lines, db') ∧ I db'.
Proof.
  intros Hbody Hxs. revert db.
  induction Hxs as [|x xs Hx Hxs IH]; intros db Hdb.
  - by exists [], db.
  - destruct (Hbody x db Hx Hdb) as (line & db0 & Hrun & Hdb0).
    destruct (IH db0 Hdb0) as (lines & db1 & Hrest & Hdb1).
    exists (line :: lines), db1. split; [|done].
    by rewrite for_each_cons, Hrun, Hrest.
Qed.
End for_each_invariants.

Lemma lines_total_opp (f : result_line → Z) (lines : list result_line) :
  foldr (λ line acc, - f line + acc) 0 lines = - lines_total f lines.
Proof.
  unfold lines_total. induction lines as [|line lines IH]; simpl; lia.
Qed.

Lemma qty_of_insert (db : table) (sku sku' name : string) (q : Z) :
  qty_of (<[sku' := (name, q)]> db) sku
  = if decide (sku' = sku) then q else qty_of db sku.
Proof.
  unfold qty_of. rewrite lookup_insert.
  by destruct (decide (sku' = sku)).
Qed.

Lemma addbulk_entry_qty
    (entry sku : string) (db db' : table) (line : result_line) :
  addbulk_entry entry db = (Returns line, db') →
  qty_of db' sku = qty_of db sku + line_added sku line.
Proof.
  rewrite addbulk_entry_eq.
  destruct (fields entry) as [|sku' [|name [|qty_str [|? ?]]]];
    try (intros [= <- <-]; simpl; lia).
  destruct (Py.int qty_str) as [qty|]; [|intros [= <- <-]; simpl; lia].
  destruct (decide _); [|done]. intros [= <- <-]. simpl.
  rewrite qty_of_insert.
  destruct (decide (sku' = sku)) as [->|]; lia.
Qed.

Lemma addbulk_entry_name (entry sku name : string) (db : table) :
  name_of db sku = Some name → name_of (addbulk_entry entry db).2 sku = Some name.
Proof.
  intros Hname. rewrite addbulk_entry_eq.
  destruct (fields entry) as [|sku' [|name' [|qty_str [|? ?]]]]; try done.
  destruct (Py.int qty_str) as [qty|]; [|done].
  destruct (decide _); [|done]. simpl.
  unfold name_of in *. rewrite lookup_insert.
  destruct (decide (sku' = sku)) as [->|]; [|done].
  simpl. by rewrite Hname.
Qed.

Lemma sellbulk_entry_qty
    (entry sku : string) (db db' : table) (line : result_line) :
  sellbulk_entry entry db = (Returns line, db') →
  qty_of db' sku = qty_of db sku + - line_sold sku line.
Proof.
  rewrite sellbulk_entry_eq.
  destruct (fields entry) as [|sku' [|qty_str [|? ?]]];
    try (intros [= <- <-]; simpl; lia).
  destruct (Py.int qty_str) as [qty|]; [|intros [= <- <-]; simpl; lia].
  destruct (db !! sku') as [[name q]|] eqn:Hsku'; [|intros [= <- <-]; simpl; lia].
  destruct (bool_decide (qty > q)); [intros [= <- <-]; simpl; lia|].
  destruct (decide _); [|done]. intros [= <- <-]. simpl.
  rewrite qty_of_insert.
  destruct (decide (sku' = sku)) as [->|]; [|lia].
  unfold qty_of. rewrite Hsku'. lia.
Qed.

Lemma sellbulk_entry_name (entry sku : string) (db : table) :
  name_of (sellbulk_entry entry db).2 sku = name_of db sku.
Proof.
  rewrite sellbulk_entry_eq.
  destruct (fields entry) as [|sku' [|qty_str [|? ?]]]; try done.
  destruct (Py.int qty_str) as [qty|]; [|done].
  destruct (db !! sku') as [[name q]|] eqn:Hsku'; [|done].
  destruct (bool_decide (qty > q)); [done|].
  destruct (decide _); [|done]. simpl.
  unfold name_of. rewrite lookup_insert.
  destruct (decide (sku' = sku)) as [->|]; [|done].
  by rewrite Hsku'.
Qed.

Lemma sellbulk_entry_nonneg (entry : string) (db : table) :
  nonneg db → nonneg (sellbulk_entry entry db).2.
Proof.
  intros Hdb. rewrite sellbulk_entry_eq.
  destruct (fields entry) as [|sku' [|qty_str [|? ?]]]; try done.
  destruct (Py.int qty_str) as [qty|]; [|done].
  destruct (db !! sku') as [[name q]|] eqn:Hsku'; [|done].
  destruct (decide (qty > q)) as [Hgt|Hle].
  - by rewrite bool_decide_eq_true_2.
  - rewrite bool_decide_eq_false_2 by done.
    destruct (decide _); [|done]. simpl.
    apply map_Forall_insert_2; [simpl; lia|done].
Qed.

(** What a bulk handler does: a whole-batch reply and the table as it
    was, or the loop over some entries. *)
Lemma addbulk_cmd_cases (message_text : string) (db : table) :
  (∃ r, addbulk_cmd message_text db = (Returns r, db) ∧ reply_lines r = [])
  ∨ ∃ parts,
      addbulk_cmd message_text db
      = match for_each addbulk_entry parts db with
        | (Returns lines, db') => (Returns (Joined lines), db')
        | (Raises x, db') => (Raises x, db')
        end.
Proof.
  destruct (decide (entries (Py.strip (Py.partition_tail " " message_text)) = []))
    as [Hnil|Hparts].
  - left. unfold addbulk_cmd. rewrite Hnil.
    destruct (decide _); [by exists Usage_addbulk|by exists No_valid_entries].
  - right. exists (entries (Py.strip (Py.partition_tail " " message_text))).
    by apply addbulk_cmd_joined.
Qed.

Lemma sellbulk_cmd_cases (message_text : string) (db : table) :
  (∃ r, sellbulk_cmd message_text db = (Returns r, db) ∧ reply_lines r = [])
  ∨ ∃ parts,
      parts = entries (Py.strip (Py.partition_tail " " message_text))
      ∧ sellbulk_cmd message_text db
        = match for_each sellbulk_entry parts db with
          | (Returns lines, db') => (Returns (Joined lines), db')
          | (Raises x, db') => (Raises x, db')
          end.
Proof.
  destruct (decide (entries (Py.strip (Py.partition_tail " " message_text)) = []))
    as [Hnil|Hparts].
  - left. unfold sellbulk_cmd. rewrite Hnil.
    destruct (decide _); [by exists Usage_sellbulk|by exists No_valid_entries].
  - right. exists (entries (Py.strip (Py.partition_tail " " message_text))).
    split; [done|]. by apply sellbulk_cmd_joined.
Qed.

(** X21.  The [✔] lines of an [addbulk_cmd] reply account for the whole
    change of the table: when the handler replies, for every sku the
    quantity on hand after the command is the quantity before plus the sum
    of the quantities of the lines that report an addition to that sku.
    And whether it replies or raises, a sku that had a row still has it,
    under the same name. *)
Theorem addbulk_cmd_accounts (message_text sku : string) (db : table) :
  (∀ r db', addbulk_cmd message_text db = (Returns r, db') →
     qty_of db' sku
     = qty_of db sku + lines_total (line_added sku) (reply_lines r))
  ∧ (∀ name, name_of db sku = Some name →
       name_of (addbulk_cmd message_text db).2 sku = Some name).
Proof.
  destruct (addbulk_cmd_cases message_text db)
    as [(r0 & -> & Hr0)|(parts & ->)].
  - split; [|done]. intros r db' [= <- <-]. rewrite Hr0. simpl. lia.
  - split.
    + intros r db'.
      destruct (for_each addbulk_entry parts db) as [[lines|x] db1] eqn:Hrun;
        [|done].
      intros [= <- <-]. simpl.
      apply (for_each_measure addbulk_entry (line_added sku)
               (λ d, qty_of d sku) parts db db1 lines); [|done].
      intros e d line d'. apply addbulk_entry_qty.
    + intros name Hname.
      assert (name_of (for_each addbulk_entry parts db).2 sku = Some name)
        as Hkept.
      { apply (for_each_invariant addbulk_entry
                 (λ d, name_of d sku = Some name)); [|done].
        intros e d. apply addbulk_entry_name. }
      by destruct (for_each addbulk_entry parts db) as [[lines|x] db1].
Qed.

Lemma addbulk_cmd_accounts_witness :
  qty_of {["X" := ("Widget", 16)]} "X"
  = qty_of {["X" := ("Widget", 8)]} "X"
    + lines_total (line_added "X")
        (reply_lines (Joined [Added "X" 5 "Gizmo";
                              Qty_must_be_a_number "Y" "bad";
                              Added "X" 3 "Thing"]))
  ∧ name_of (addbulk_cmd "/addbulk X|Gizmo|5; Y|Gadget|bad; X|Thing|3"
               {["X" := ("Widget", 8)]}).2 "X"
    = Some "Widget".
Proof.
  split.
  - apply (proj1 (addbulk_cmd_accounts
                    "/addbulk X|Gizmo|5; Y|Gadget|bad; X|Thing|3"
                    "X" {["X" := ("Widget", 8)]})).
    vm_compute. reflexivity.
  - apply (proj2 (addbulk_cmd_accounts
                    "/addbulk X|Gizmo|5; Y|Gadget|bad; X|Thing|3"
                    "X" {["X" := ("Widget", 8)]})).
    reflexivity.
Defined.

(** X22.  The [✔] lines of a [sellbulk_cmd] reply account for the whole
    change of the table: when the handler replies, for every sku the
    quantity on hand after the command is the quantity before minus the
    sum of the quantities of the lines that report a sale of that sku.
    And whether it replies or raises, the command neither creates nor
    deletes a row nor changes a name. *)
Theorem sellbulk_cmd_accounts (message_text sku : string) (db : table) :
  (∀ r db', sellbulk_cmd message_text db = (Returns r, db') →
     qty_of db' sku
     = qty_of db sku - lines_total (line_sold sku) (reply_lines r))
  ∧ name_of (sellbulk_cmd message_text db).2 sku = name_of db sku.
Proof.
  destruct (sellbulk_cmd_cases message_text db)
    as [(r0 & -> & Hr0)|(parts & _ & ->)].
  - split; [|done]. intros r db' [= <- <-]. rewrite Hr0. simpl. lia.
  - split.
    + intros r db'.
      destruct (for_each sellbulk_entry parts db) as [[lines|x] db1] eqn:Hrun;
        [|done].
      intros [= <- <-]. simpl.
      rewrite (for_each_measure sellbulk_entry (λ line, - line_sold sku line)
                 (λ d, qty_of d sku) parts db db1 lines).
      * rewrite lines_total_opp. lia.
      * intros e d line d'. apply sellbulk_entry_qty.
      * done.
    + assert (name_of (for_each sellbulk_entry parts db).2 sku = name_of db sku)
        as Hkept.
      { apply (for_each_invariant sellbulk_entry
                 (λ d, name_of d sku = name_of db sku)); [|done].
        intros e d <-. apply sellbulk_entry_name. }
      by destruct (for_each sellbulk_entry parts db) as [[lines|x] db1].
Qed.

Lemma sellbulk_cmd_accounts_witness :
  qty_of {["X" := ("Widget", 5)]} "X"
  = qty_of {["X" := ("Widget", 8)]} "X"
    - lines_total (line_sold "X")
        (reply_lines (Joined [Sell_failed "X" (Not_enough_stock 8);
                              Sold "X" 3 (New_q 5);
                              Sell_failed "Y" SKU_not_found])).
Proof.
  apply (proj1 (sellbulk_cmd_accounts "/sellbulk X|100; X|3; Y|1" "X"
                  {["X" := ("Widget", 8)]})).
  vm_compute. reflexivity.
Defined.

(** X23.  [sellbulk_cmd] never takes a quantity below zero: from a table
    without negative quantities it leaves a table without negative
    quantities, whatever the message, negative quantities to sell
    included. *)
Theorem sellbulk_cmd_nonneg (message_text : string) (db : table) :
  nonneg db → nonneg (sellbulk_cmd message_text db).2.
Proof.
  intros Hdb.
  destruct (sellbulk_cmd_cases message_text db)
    as [(r0 & -> & _)|(parts & _ & ->)]; [done|].
  assert (nonneg (for_each sellbulk_entry parts db).2) as Hkept.
  { apply (for_each_invariant sellbulk_entry nonneg); [|done].
    intros e d. apply sellbulk_entry_nonneg. }
  by destruct (for_each sellbulk_entry parts db) as [[lines|x] db1].
Qed.

Lemma sellbulk_cmd_nonneg_witness :
  nonneg (sellbulk_cmd "/sellbulk X|100; X|-3; X|11; Y|1" {["X" := ("Widget", 8)]}).2.
Proof.
  apply (sellbulk_cmd_nonneg "/sellbulk X|100; X|-3; X|11; Y|1"
           {["X" := ("Widget", 8)]}).
  apply map_Forall_insert_2; [simpl; lia|apply map_Forall_empty].
Defined.

(** ** Quantities the table can hold *)

Lemma exec_storable (c : call) (db : table) : storable db → storable (exec c db).
Proof.
  intros Hdb. destruct c as [sku name qty|sku| |sku amount|sku]; cbn [exec].
  - rewrite add_or_update_sku_eq. destruct (decide _) as [Hfits|]; [|done].
    simpl. by apply map_Forall_insert_2.
  - by rewrite get_stock_eq.
  - done.
  - rewrite reduce_stock_eq.
    destruct (db !! sku) as [[name q]|]; [|done].
    destruct (bool_decide (amount > q)); [done|].
    destruct (decide _) as [Hfits|]; [|done].
    simpl. by apply map_Forall_insert_2.
  - rewrite delete_sku_eq. simpl. by apply map_Forall_delete.
Qed.

(** X25.  No sequence of calls of the helper functions stores a quantity
    outside the signed 64-bit range: from a table whose quantities are all
    in the range (the empty table for one), every call leaves such a
    table, because an INSERT or UPDATE of a quantity outside the range
    raises instead of storing it. *)
Theorem run_storable (cs : list call) (db : table) :
  storable db → storable (run cs db).
Proof.
  unfold run. revert db.
  induction cs as [|c cs IH]; intros db Hdb; [done|].
  simpl. by apply IH, exec_storable.
Qed.

Lemma run_storable_witness :
  storable (run [Call_add "X" "Widget" (2 ^ 63 - 1); Call_add "X" "Widget" 1;
                 Call_reduce "X" (- 1); Call_delete "Y"] ∅).
Proof.
  apply (run_storable
           [Call_add "X" "Widget" (2 ^ 63 - 1); Call_add "X" "Widget" 1;
            Call_reduce "X" (- 1); Call_delete "Y"] ∅).
  apply map_Forall_empty.
Defined.

Lemma sellbulk_entry_returns (entry : string) (db : table) :
  sells_nonneg entry → storable db →
  ∃ line db', sellbulk_entry entry db = (Returns line, db') ∧ storable db'.
Proof.
  unfold sells_nonneg. intros Hentry Hdb. rewrite sellbulk_entry_eq.
  destruct (fields entry) as [|sku [|qty_str [|? ?]]]; eauto.
  destruct (Py.int qty_str) as [qty|]; eauto.
  destruct (db !! sku) as [[name q]|] eqn:Hsku; eauto.
  destruct (decide (qty > q)) as [Hgt|Hle].
  - rewrite bool_decide_eq_true_2 by done. eauto.
  - rewrite bool_decide_eq_false_2 by done.
    pose proof (Hdb sku (name, q) Hsku) as Hq. simpl in Hq.
    destruct (decide (fits (q - qty))) as [Hfits|Hno].
    + eexists _, _. split; [done|]. by apply map_Forall_insert_2.
    + destruct Hno. unfold fits in *. lia.
Qed.

(** X26.  [sellbulk_cmd] always replies when no entry asks to sell a
    negative quantity and the quantities in the table are in the signed
    64-bit range: a sale that is not refused then leaves a quantity
    between zero and the one on hand, which the UPDATE stores. *)
Theorem sellbulk_cmd_replies (message_text : string) (db : table) :
  storable db →
  Forall sells_nonneg (entries (Py.strip (Py.partition_tail " " message_text))) →
  ∃ r db', sellbulk_cmd message_text db = (Returns r, db') ∧ storable db'.
Proof.
  intros Hdb Hentries.
  destruct (sellbulk_cmd_cases message_text db)
    as [(r0 & -> & _)|(parts & -> & ->)]; [by eauto|].
  destruct (for_each_returns sellbulk_entry storable sells_nonneg _ db
              sellbulk_entry_returns Hentries Hdb)
    as (lines & db' & -> & Hdb').
  by eauto.
Qed.

Lemma sellbulk_cmd_replies_witness :
  ∃ r db', sellbulk_cmd "/sellbulk X|100; X|3; Y|1" {["X" := ("Widget", 8)]}
           = (Returns r, db') ∧ storable db'.
Proof.
  apply (sellbulk_cmd_replies "/sellbulk X|100; X|3; Y|1" {["X" := ("Widget", 8)]}).
  - apply map_Forall_insert_2; [unfold fits; simpl; lia|apply map_Forall_empty].
  - assert (entries (Py.strip (Py.partition_tail " " "/sellbulk X|100; X|3; Y|1"))
            = ["X|100"; "X|3"; "Y|1"]) as -> by (vm_compute; reflexivity).
    repeat (apply Forall_cons; split; [vm_compute; discriminate|]).
    apply Forall_nil_2.
Defined.
